(** * Verification of [infrastructure/aws/s3_bucket_setup.py]

    A shallow embedding of the S3 data-lake provisioning script: the
    per-tier lifecycle table [get_lifecycle_config], the bucket provisioner
    [create_bucket] and the top-level routine [create_data_lake].

    The script talks to a cloud object-storage API through a boto3 client,
    writes log records and finally writes one JSON file.  All three effects
    are made explicit in a machine state that is threaded through a small
    monad with Python's three statement outcomes (fall through, [return],
    raised [ClientError]). *)

From Stdlib Require Import ZArith.
From stdpp Require Import base option list strings gmap.

Local Open Scope string_scope.
Local Open Scope list_scope.

(** ** Request parameters of the S3 management API *)

(** [{'Days': ..., 'StorageClass': ...}] *)
Record Transition := mkTransition {
  Days : Z;
  StorageClass : string
}.

(** One element of ['Rules'] in a lifecycle configuration; ['Filter'] is
    always a dict with the single key ['Prefix']. *)
Record LifecycleRule := mkLifecycleRule {
  ID : string;
  Status : string;
  Filter_Prefix : string;
  Transitions : list Transition
}.

(** [{'Rules': [...]}] *)
Record LifecycleConfiguration := mkLifecycleConfiguration {
  Rules : list LifecycleRule
}.

#[global] Instance Transition_eq_dec : EqDecision Transition.
Proof. solve_decision. Defined.
#[global] Instance LifecycleRule_eq_dec : EqDecision LifecycleRule.
Proof. solve_decision. Defined.
#[global] Instance LifecycleConfiguration_eq_dec : EqDecision LifecycleConfiguration.
Proof. solve_decision. Defined.

(** ** Lifecycle policy selector (source lines 158-226) *)

Definition get_lifecycle_config (tier : string) : LifecycleConfiguration :=
  if decide (tier = "bronze") then
    {| Rules := [
         {| ID := "Move to IA and Glacier";
            Status := "Enabled";
            Filter_Prefix := "";
            Transitions := [
              {| Days := 60; StorageClass := "STANDARD_IA" |};
              {| Days := 180; StorageClass := "GLACIER" |} ] |} ] |}
  else if decide (tier = "silver") then
    {| Rules := [
         {| ID := "Move to IA and Glacier";
            Status := "Enabled";
            Filter_Prefix := "";
            Transitions := [
              {| Days := 30; StorageClass := "STANDARD_IA" |};
              {| Days := 90; StorageClass := "GLACIER" |} ] |} ] |}
  else
    {| Rules := [
         {| ID := "Move to IA";
            Status := "Enabled";
            Filter_Prefix := "";
            Transitions := [
              {| Days := 30; StorageClass := "STANDARD_IA" |} ] |} ] |}.

(** The transitions of a configuration, rule by rule, in order. *)
Definition transitions_of (cfg : LifecycleConfiguration) : list (list Transition) :=
  Transitions <$> Rules cfg.


(** ** Requests of the S3 management API *)

(** One element of ['Rules'] in a [ServerSideEncryptionConfiguration]. *)
Record ServerSideEncryptionRule := mkServerSideEncryptionRule {
  SSEAlgorithm : string;
  BucketKeyEnabled : bool
}.

Record PublicAccessBlockConfiguration := mkPublicAccessBlockConfiguration {
  BlockPublicAcls : bool;
  IgnorePublicAcls : bool;
  BlockPublicPolicy : bool;
  RestrictPublicBuckets : bool
}.

(** One element of ['TagSet']. *)
Record Tag := mkTag {
  Key : string;
  Value : string
}.

(** The operations of the S3 client that concern a bucket's existence and
    the five configuration aspects the script manages.  The script itself
    only ever issues the first six; the deleting operations belong to the
    same API and are listed so that their absence from a trace is a
    statement about the script and not about this type. *)
Inductive ApiCall :=
| CreateBucket (Bucket : string) (LocationConstraint : option string)
| PutBucketVersioning (Bucket : string) (VersioningStatus : string)
| PutBucketEncryption (Bucket : string) (SSERules : list ServerSideEncryptionRule)
| PutPublicAccessBlock (Bucket : string) (Block : PublicAccessBlockConfiguration)
| PutBucketLifecycleConfiguration (Bucket : string) (Lifecycle : LifecycleConfiguration)
| PutBucketTagging (Bucket : string) (TagSet : list Tag)
| DeleteBucket (Bucket : string)
| DeleteBucketEncryption (Bucket : string)
| DeletePublicAccessBlock (Bucket : string)
| DeleteBucketLifecycle (Bucket : string)
| DeleteBucketTagging (Bucket : string).

#[global] Instance ServerSideEncryptionRule_eq_dec : EqDecision ServerSideEncryptionRule.
Proof. solve_decision. Defined.
#[global] Instance PublicAccessBlockConfiguration_eq_dec :
  EqDecision PublicAccessBlockConfiguration.
Proof. solve_decision. Defined.
#[global] Instance Tag_eq_dec : EqDecision Tag.
Proof. solve_decision. Defined.
#[global] Instance ApiCall_eq_dec : EqDecision ApiCall.
Proof. solve_decision. Defined.

(** The bucket a request is addressed to. *)
Definition target (c : ApiCall) : string :=
  match c with
  | CreateBucket b _ | PutBucketVersioning b _ | PutBucketEncryption b _
  | PutPublicAccessBlock b _ | PutBucketLifecycleConfiguration b _
  | PutBucketTagging b _ | DeleteBucket b | DeleteBucketEncryption b
  | DeletePublicAccessBlock b | DeleteBucketLifecycle b
  | DeleteBucketTagging b => b
  end.

(** Requests that remove a bucket or undo one of its configurations. *)
Definition is_delete (c : ApiCall) : bool :=
  match c with
  | DeleteBucket _ | DeleteBucketEncryption _ | DeletePublicAccessBlock _
  | DeleteBucketLifecycle _ | DeleteBucketTagging _ => true
  | _ => false
  end.

(** Requests that create a bucket. *)
Definition is_create (c : ApiCall) : bool :=
  match c with
  | CreateBucket _ _ => true
  | _ => false
  end.

(** [botocore.exceptions.ClientError]: the provider-reported error.  The
    script reads [e.response['Error']['Code']] and formats the exception
    into log messages; [error_text] is what [str(e)] renders. *)
Record ClientError := mkClientError {
  error_code : string;
  error_text : string
}.

(** What the provider answers to one request.  The errors are the
    provider-reported ones, which boto3 raises as [ClientError]; they are
    the only failures the script handles. *)
Inductive ApiResult :=
| Ok
| Err (e : ClientError).

Definition is_ok (r : ApiResult) : bool :=
  match r with Ok => true | Err _ => false end.

(** ** Log records and the JSON document *)

Inductive Level := INFO | ERROR.

Definition LogRecord : Type := Level * string.

(** The JSON values the script builds: strings and (ordered) objects. *)
#[local] Set Warnings "-register-all".
Inductive Json :=
| JString (s : string)
| JObject (fields : list (string * Json)).

Definition json_keys (j : Json) : list string :=
  match j with
  | JString _ => []
  | JObject fields => fields.*1
  end.

(** [j[k]] for an object (first binding, keys of a dict are unique). *)
Definition json_get (k : string) (j : Json) : option Json :=
  match j with
  | JString _ => None
  | JObject fields => (list_find (λ kv, kv.1 = k) fields) ≫= (λ r, Some r.2.2)
  end.

(** ** The machine: provider state, call trace, log, file system *)

Record Machine (World : Type) := mkMachine {
  cloud : World;
  calls : list ApiCall;
  logs : list LogRecord;
  files : gmap string Json
}.
Arguments mkMachine {World}.
Arguments cloud {World}.
Arguments calls {World}.
Arguments logs {World}.
Arguments files {World}.

(** How a Python statement ends: it falls through with a value, a [return]
    statement ran, or a [ClientError] is propagating. *)
Inductive Flow (R A : Type) :=
| Normal (a : A)
| Returned (r : R)
| Raised (e : ClientError).
Arguments Normal {R A}.
Arguments Returned {R A}.
Arguments Raised {R A}.

Definition Py (World R A : Type) : Type := Machine World → Flow R A * Machine World.

Definition ret {World R A} (a : A) : Py World R A :=
  λ m, (Normal a, m).

Definition bind {World R A B} (c : Py World R A) (k : A → Py World R B) : Py World R B :=
  λ m, match c m with
       | (Normal a, m') => k a m'
       | (Returned r, m') => (Returned r, m')
       | (Raised e, m') => (Raised e, m')
       end.

(** [return r] *)
Definition return_ {World R A} (r : R) : Py World R A :=
  λ m, (Returned r, m).

(** [try: body  except ClientError as e: handler e] *)
Definition try_except {World R A} (body : Py World R A)
    (handler : ClientError → Py World R A) : Py World R A :=
  λ m, match body m with
       | (Raised e, m') => handler e m'
       | other => other
       end.

(** Calling a function: its [return] value becomes the value of the call
    expression, falling off the end yields [None], an exception propagates
    into the caller. *)
Definition call {World R R'} (body : Py World R unit) : Py World R' (option R) :=
  λ m, match body m with
       | (Normal _, m') => (Normal None, m')
       | (Returned r, m') => (Normal (Some r), m')
       | (Raised e, m') => (Raised e, m')
       end.

(** Truth value of a call result in a condition ([None] is falsy). *)
Definition truthy (v : option bool) : bool :=
  match v with Some b => b | None => false end.

#[global] Instance Py_ret {World R} : MRet (Py World R) := λ A, ret.
#[global] Instance Py_bind {World R} : MBind (Py World R) := λ A B k c, bind c k.

(** [for x in items: body], with the local variables the body assigns
    carried from one iteration to the next. *)
Fixpoint for_in {World R A S} (items : list A) (body : A → S → Py World R S)
    (s : S) : Py World R S :=
  match items with
  | [] => ret s
  | x :: items' => s' ← body x s; for_in items' body s'
  end.

(** [logger.info(msg)] and [logger.error(msg)] *)
Definition logger_info {World R} (msg : string) : Py World R unit :=
  λ m, (Normal (), mkMachine (cloud m) (calls m) (logs m ++ [(INFO, msg)]) (files m)).

Definition logger_error {World R} (msg : string) : Py World R unit :=
  λ m, (Normal (), mkMachine (cloud m) (calls m) (logs m ++ [(ERROR, msg)]) (files m)).

(** [with open(path, 'w') as f: json.dump(obj, f, indent=...)]: the file at
    [path] is replaced; its content is identified with the document that
    is serialised into it (the indent only affects white space). *)
Definition json_dump_to {World R} (path : string) (obj : Json) (indent : nat)
    : Py World R unit :=
  λ m, (Normal (), mkMachine (cloud m) (calls m) (logs m) (<[path := obj]> (files m))).

(** ** Module-level constants (source lines 20-27) *)

Definition PROJECT_NAME : string := "patient-outcome".
Definition AWS_REGION : string := "us-west-2".
Definition ENVIRONMENT : string := "dev".

Definition BRONZE_BUCKET : string := PROJECT_NAME +:+ "-" +:+ ENVIRONMENT +:+ "-bronze-data".
Definition SILVER_BUCKET : string := PROJECT_NAME +:+ "-" +:+ ENVIRONMENT +:+ "-silver-data".
Definition GOLD_BUCKET : string := PROJECT_NAME +:+ "-" +:+ ENVIRONMENT +:+ "-gold-data".

(** ** The script, over an arbitrary provider *)

Section Script.

(** The provider: a state machine answering one request at a time. *)
Context {World : Type}.
Variable s3 : World → ApiCall → World * ApiResult.

(** [s3_client.<operation>(...)]: the request is recorded, the provider
    moves on, and an error answer is raised as [ClientError]. *)
Definition invoke {R} (c : ApiCall) : Py World R unit :=
  λ m, let '(w, r) := s3 (cloud m) c in
       let m' := mkMachine w (calls m ++ [c]) (logs m) (files m) in
       match r with
       | Ok => (Normal (), m')
       | Err e => (Raised e, m')
       end.

(** Source lines 29-156.  [boto3.client('s3', region_name=region)] only
    builds the client object and issues no request. *)
Definition create_bucket (bucket_name region tier : string) : Py World bool unit :=
  logger_info ("Creating " +:+ tier +:+ " tier bucket: " +:+ bucket_name);;
  try_except
    ((if decide (region = "us-east-1")
      then invoke (CreateBucket bucket_name None)
      else invoke (CreateBucket bucket_name (Some region)));;
     logger_info ("Bucket " +:+ bucket_name +:+ " created successfully"))
    (λ e,
      let error_code := error_code e in
      if decide (error_code = "BucketAlreadyOwnedByYou")
      then logger_info ("Bucket " +:+ bucket_name +:+ " already exists and is owned by you")
      else
        logger_error ("Error creating bucket " +:+ bucket_name +:+ ": " +:+ error_text e);;
        return_ false);;
  try_except
    (invoke (PutBucketVersioning bucket_name "Enabled");;
     logger_info ("Enabled versioning on " +:+ bucket_name))
    (λ e,
      logger_error ("Error enabling versioning on " +:+ bucket_name +:+ ": " +:+ error_text e);;
      return_ false);;
  try_except
    (invoke (PutBucketEncryption bucket_name
               [ {| SSEAlgorithm := "AES256"; BucketKeyEnabled := true |} ]);;
     logger_info ("Enabled encryption on " +:+ bucket_name))
    (λ e,
      logger_error ("Error enabling encryption on " +:+ bucket_name +:+ ": " +:+ error_text e);;
      return_ false);;
  try_except
    (invoke (PutPublicAccessBlock bucket_name
               {| BlockPublicAcls := true;
                  IgnorePublicAcls := true;
                  BlockPublicPolicy := true;
                  RestrictPublicBuckets := true |});;
     logger_info ("Blocked public access on " +:+ bucket_name))
    (λ e,
      logger_error ("Error blocking public access on " +:+ bucket_name +:+ ": " +:+ error_text e);;
      return_ false);;
  let lifecycle_config := get_lifecycle_config tier in
  try_except
    (invoke (PutBucketLifecycleConfiguration bucket_name lifecycle_config);;
     logger_info ("Set lifecycle policy for " +:+ tier +:+ " tier on " +:+ bucket_name))
    (λ e,
      logger_error ("Error setting lifecycle policy on " +:+ bucket_name +:+ ": " +:+ error_text e);;
      return_ false);;
  try_except
    (invoke (PutBucketTagging bucket_name
               [ {| Key := "Project"; Value := "PatientOutcomePrediction" |};
                 {| Key := "Environment"; Value := ENVIRONMENT |};
                 {| Key := "DataTier"; Value := tier |};
                 {| Key := "Contains-PHI"; Value := "True" |};
                 {| Key := "Compliance"; Value := "HIPAA" |} ]);;
     logger_info ("Added compliance tags to " +:+ bucket_name))
    (λ e,
      logger_error ("Error adding tags to " +:+ bucket_name +:+ ": " +:+ error_text e);;
      return_ false);;
  return_ true.

(** Source lines 228-268.  [buckets] is a dict literal with three distinct
    keys; [buckets.items()] yields them in insertion order. *)
Definition create_data_lake : Py World bool unit :=
  let buckets :=
    [ ("bronze", BRONZE_BUCKET);
      ("silver", SILVER_BUCKET);
      ("gold", GOLD_BUCKET) ] in
  success ← for_in buckets
    (λ '(tier, bucket_name) success,
       r ← call (create_bucket bucket_name AWS_REGION tier);
       if negb (truthy r) then mret false else mret success)
    true;
  if success : bool then
    logger_info "✅ Data lake S3 buckets created successfully!";;
    logger_info ("Bronze tier: " +:+ BRONZE_BUCKET +:+ " (raw data storage)");;
    logger_info ("Silver tier: " +:+ SILVER_BUCKET +:+ " (processed/transformed data)");;
    logger_info ("Gold tier: " +:+ GOLD_BUCKET +:+ " (analytics-ready data)");;
    let config :=
      JObject [
        ("project", JString PROJECT_NAME);
        ("environment", JString ENVIRONMENT);
        ("region", JString AWS_REGION);
        ("buckets", JObject [
           ("bronze", JString BRONZE_BUCKET);
           ("silver", JString SILVER_BUCKET);
           ("gold", JString GOLD_BUCKET) ]) ] in
    json_dump_to "data_lake_config.json" config 2;;
    logger_info "Configuration saved to data_lake_config.json";;
    return_ true
  else
    logger_error "❌ Failed to create some data lake buckets";;
    return_ false.

End Script.

(** ** Vocabulary for the statements *)

(** The creation request [create_bucket] sends for a region. *)
Definition create_request (bucket_name region : string) : ApiCall :=
  if decide (region = "us-east-1")
  then CreateBucket bucket_name None
  else CreateBucket bucket_name (Some region).

(** The five configuration steps. *)
Inductive ConfigStep :=
| Versioning
| Encryption
| PublicAccessBlock
| Lifecycle
| Tagging.

#[global] Instance ConfigStep_eq_dec : EqDecision ConfigStep.
Proof. solve_decision. Defined.

Definition config_steps : list ConfigStep :=
  [Versioning; Encryption; PublicAccessBlock; Lifecycle; Tagging].

(** The request a configuration step sends. *)
Definition step_request (bucket_name tier : string) (k : ConfigStep) : ApiCall :=
  match k with
  | Versioning => PutBucketVersioning bucket_name "Enabled"
  | Encryption =>
      PutBucketEncryption bucket_name
        [ {| SSEAlgorithm := "AES256"; BucketKeyEnabled := true |} ]
  | PublicAccessBlock =>
      PutPublicAccessBlock bucket_name
        {| BlockPublicAcls := true; IgnorePublicAcls := true;
           BlockPublicPolicy := true; RestrictPublicBuckets := true |}
  | Lifecycle => PutBucketLifecycleConfiguration bucket_name (get_lifecycle_config tier)
  | Tagging =>
      PutBucketTagging bucket_name
        [ {| Key := "Project"; Value := "PatientOutcomePrediction" |};
          {| Key := "Environment"; Value := ENVIRONMENT |};
          {| Key := "DataTier"; Value := tier |};
          {| Key := "Contains-PHI"; Value := "True" |};
          {| Key := "Compliance"; Value := "HIPAA" |} ]
  end.

(** The error record a failing configuration step logs. *)
Definition step_error_record (bucket_name : string) (k : ConfigStep) (e : ClientError)
    : LogRecord :=
  (ERROR,
   match k with
   | Versioning => "Error enabling versioning on "
   | Encryption => "Error enabling encryption on "
   | PublicAccessBlock => "Error blocking public access on "
   | Lifecycle => "Error setting lifecycle policy on "
   | Tagging => "Error adding tags to "
   end +:+ bucket_name +:+ ": " +:+ error_text e).

(** The record a completed configuration step logs. *)
Definition step_done_record (bucket_name tier : string) (k : ConfigStep) : LogRecord :=
  (INFO,
   match k with
   | Versioning => "Enabled versioning on " +:+ bucket_name
   | Encryption => "Enabled encryption on " +:+ bucket_name
   | PublicAccessBlock => "Blocked public access on " +:+ bucket_name
   | Lifecycle => "Set lifecycle policy for " +:+ tier +:+ " tier on " +:+ bucket_name
   | Tagging => "Added compliance tags to " +:+ bucket_name
   end).

(** The record logged for the answer to the creation request. *)
Definition creation_record (bucket_name : string) (r : ApiResult) : LogRecord :=
  match r with
  | Ok => (INFO, "Bucket " +:+ bucket_name +:+ " created successfully")
  | Err e =>
      if decide (error_code e = "BucketAlreadyOwnedByYou")
      then (INFO, "Bucket " +:+ bucket_name +:+ " already exists and is owned by you")
      else (ERROR, "Error creating bucket " +:+ bucket_name +:+ ": " +:+ error_text e)
  end.

(** The record logged on entry. *)
Definition entry_record (bucket_name tier : string) : LogRecord :=
  (INFO, "Creating " +:+ tier +:+ " tier bucket: " +:+ bucket_name).

(** The steps that come before step [k]. *)
Definition steps_before (k : ConfigStep) : list ConfigStep :=
  match k with
  | Versioning => []
  | Encryption => [Versioning]
  | PublicAccessBlock => [Versioning; Encryption]
  | Lifecycle => [Versioning; Encryption; PublicAccessBlock]
  | Tagging => [Versioning; Encryption; PublicAccessBlock; Lifecycle]
  end.

(** All six requests of a complete provisioning, in source order. *)
Definition provisioning_requests (bucket_name region tier : string) : list ApiCall :=
  create_request bucket_name region :: (step_request bucket_name tier <$> config_steps).

(** A creation answer the script accepts: success, or the error code
    ['BucketAlreadyOwnedByYou']. *)
Definition tolerated (r : ApiResult) : bool :=
  match r with
  | Ok => true
  | Err e => bool_decide (error_code e = "BucketAlreadyOwnedByYou")
  end.

Section Provider.

Context {World : Type}.
Variable s3 : World → ApiCall → World * ApiResult.

(** The provider's state after a sequence of requests. *)
Fixpoint s3_after (w : World) (cs : list ApiCall) : World :=
  match cs with
  | [] => w
  | c :: cs' => s3_after (s3 w c).1 cs'
  end.

(** The provider's answer to [c] once the requests [cs] were served. *)
Definition answer (w : World) (cs : list ApiCall) (c : ApiCall) : ApiResult :=
  (s3 (s3_after w cs) c).2.

(** The answer to the creation request of a provisioning that starts in
    provider state [w]. *)
Definition creation_answer (w : World) (bucket_name region : string) : ApiResult :=
  answer w [] (create_request bucket_name region).

(** The answer to the request of step [k], asked after the creation request
    and the requests of the steps before [k]. *)
Definition step_answer (w : World) (bucket_name region tier : string) (k : ConfigStep)
    : ApiResult :=
  answer w
    (create_request bucket_name region :: (step_request bucket_name tier <$> steps_before k))
    (step_request bucket_name tier k).

(** Creation is tolerated and every configuration step is answered [Ok]. *)
Definition provisions (w : World) (bucket_name region tier : string) : bool :=
  tolerated (creation_answer w bucket_name region) &&
  forallb (λ k, is_ok (step_answer w bucket_name region tier k)) config_steps.

End Provider.

(** The flag a finished function body hands to its caller. *)
Definition returned {World : Type} (out : Flow bool unit * Machine World) : option bool :=
  match out.1 with
  | Returned b => Some b
  | _ => None
  end.

(** The requests issued between two machine states. *)
Definition issued_since {World : Type} (m m' : Machine World) : list ApiCall :=
  drop (length (calls m)) (calls m').

(** The three invocations of [create_bucket] in a run of [create_data_lake]
    that starts in machine state [m]: each starts where the one before it
    ended. *)
Definition bronze_run {World : Type} (s3 : World → ApiCall → World * ApiResult)
    (m : Machine World) : Flow bool unit * Machine World :=
  create_bucket s3 BRONZE_BUCKET AWS_REGION "bronze" m.

Definition silver_run {World : Type} (s3 : World → ApiCall → World * ApiResult)
    (m : Machine World) : Flow bool unit * Machine World :=
  create_bucket s3 SILVER_BUCKET AWS_REGION "silver" (bronze_run s3 m).2.

Definition gold_run {World : Type} (s3 : World → ApiCall → World * ApiResult)
    (m : Machine World) : Flow bool unit * Machine World :=
  create_bucket s3 GOLD_BUCKET AWS_REGION "gold" (silver_run s3 m).2.

(** The document [create_data_lake] is expected to write. *)
Definition summary_document : Json :=
  JObject [
    ("project", JString "patient-outcome");
    ("environment", JString "dev");
    ("region", JString "us-west-2");
    ("buckets", JObject [
       ("bronze", JString "patient-outcome-dev-bronze-data");
       ("silver", JString "patient-outcome-dev-silver-data");
       ("gold", JString "patient-outcome-dev-gold-data") ]) ].

(** The records logged after the loop of a successful run. *)
Definition success_records : list LogRecord :=
  [ (INFO, "✅ Data lake S3 buckets created successfully!");
    (INFO, "Bronze tier: patient-outcome-dev-bronze-data (raw data storage)");
    (INFO, "Silver tier: patient-outcome-dev-silver-data (processed/transformed data)");
    (INFO, "Gold tier: patient-outcome-dev-gold-data (analytics-ready data)");
    (INFO, "Configuration saved to data_lake_config.json") ].

Definition failure_record : LogRecord :=
  (ERROR, "❌ Failed to create some data lake buckets").

(** The reading of "each configuration step is attempted independently of
    the others' outcomes": once creation is tolerated, the request of every
    step shows up in the call trace, whatever the other steps were
    answered. *)
Definition steps_independent {World : Type} (s3 : World → ApiCall → World * ApiResult)
    (bucket_name region tier : string) (m : Machine World) : Prop :=
  tolerated (creation_answer s3 (cloud m) bucket_name region) = true →
  ∀ k : ConfigStep,
    step_request bucket_name tier k ∈ calls (create_bucket s3 bucket_name region tier m).2.

(** A fresh process: nothing called, nothing logged, no files. *)
Definition boot {World : Type} (w : World) : Machine World :=
  mkMachine w [] [] ∅.

(** ** Concrete providers *)

(** A provider that plays back a script of answers and says [Ok] once the
    script is exhausted. *)
Definition scripted (w : list ApiResult) (c : ApiCall) : list ApiResult * ApiResult :=
  match w with
  | [] => ([], Ok)
  | r :: w' => (w', r)
  end.

(** A provider that keeps the set of buckets the caller owns: creating an
    owned bucket again is answered ['BucketAlreadyOwnedByYou'], configuring
    or deleting a missing bucket ['NoSuchBucket']. *)
Definition owned_buckets (w : gset string) (c : ApiCall) : gset string * ApiResult :=
  match c with
  | CreateBucket b _ =>
      if decide (b ∈ w)
      then (w, Err {| error_code := "BucketAlreadyOwnedByYou";
                      error_text := "An error occurred (BucketAlreadyOwnedByYou)" |})
      else ({[ b ]} ∪ w, Ok)
  | DeleteBucket b =>
      if decide (b ∈ w)
      then (w ∖ {[ b ]}, Ok)
      else (w, Err {| error_code := "NoSuchBucket";
                      error_text := "An error occurred (NoSuchBucket)" |})
  | _ =>
      if decide (target c ∈ w)
      then (w, Ok)
      else (w, Err {| error_code := "NoSuchBucket";
                      error_text := "An error occurred (NoSuchBucket)" |})
  end.

Definition access_denied : ClientError :=
  {| error_code := "AccessDenied"; error_text := "An error occurred (AccessDenied)" |}.

Definition already_owned : ClientError :=
  {| error_code := "BucketAlreadyOwnedByYou";
     error_text := "An error occurred (BucketAlreadyOwnedByYou)" |}.


(** ** The module-level call and more vocabulary *)

(** Source lines 270-271: run as a script, the module calls
    [create_data_lake()] as an expression statement; the value of the call
    is discarded.  No [return] can run at module level. *)
Definition main {World : Type} (s3 : World → ApiCall → World * ApiResult)
    : Py World Empty_set unit :=
  call (create_data_lake s3);;
  mret ().

(** The [ERROR] records of a log. *)
Definition is_error (r : LogRecord) : bool :=
  match r.1 with
  | ERROR => true
  | INFO => false
  end.

Definition errors (l : list LogRecord) : nat :=
  length (List.filter is_error l).

(** Day thresholds that grow strictly along a list of transitions. *)
Fixpoint increasing_days (ts : list Transition) : bool :=
  match ts with
  | [] => true
  | t :: ts' =>
      match ts' with
      | [] => true
      | t' :: _ => (Days t <? Days t')%Z && increasing_days ts'
      end
  end.

(** * Properties *)

(** ** The lifecycle table *)

Example lifecycle_bronze_days :
  Days <$> concat (transitions_of (get_lifecycle_config "bronze")) = [60%Z; 180%Z].
Proof. reflexivity. Qed.

Example lifecycle_unknown_tier :
  transitions_of (get_lifecycle_config "platinum")
  = [[ {| Days := 30; StorageClass := "STANDARD_IA" |} ]].
Proof. reflexivity. Qed.

(** C1.  For each of the three tiers the selector returns exactly the
    documented ordered transitions: bronze 60 days to STANDARD_IA then 180
    days to GLACIER, silver 30 days to STANDARD_IA then 90 days to GLACIER,
    gold 30 days to STANDARD_IA only; each configuration consists of a
    single rule holding them. *)
Theorem get_lifecycle_config_table :
  transitions_of (get_lifecycle_config "bronze")
  = [[ {| Days := 60; StorageClass := "STANDARD_IA" |};
       {| Days := 180; StorageClass := "GLACIER" |} ]] ∧
  transitions_of (get_lifecycle_config "silver")
  = [[ {| Days := 30; StorageClass := "STANDARD_IA" |};
       {| Days := 90; StorageClass := "GLACIER" |} ]] ∧
  transitions_of (get_lifecycle_config "gold")
  = [[ {| Days := 30; StorageClass := "STANDARD_IA" |} ]].
Proof. repeat split. Qed.

(** C8.  The selector is total and has no error outcome: every string has
    a configuration, and every string other than "bronze" and "silver"
    (the empty or a misspelled tier name included) gets the configuration
    of the gold tier, that is the single enabled rule "Move to IA" with
    the one transition 30 days to STANDARD_IA. *)
Theorem get_lifecycle_config_total (tier : string) :
  ∃ cfg : LifecycleConfiguration,
    get_lifecycle_config tier = cfg ∧
    (tier ≠ "bronze" → tier ≠ "silver" →
       cfg = {| Rules := [
                 {| ID := "Move to IA";
                    Status := "Enabled";
                    Filter_Prefix := "";
                    Transitions := [
                      {| Days := 30; StorageClass := "STANDARD_IA" |} ] |} ] |} ∧
       cfg = get_lifecycle_config "gold").
Proof.
  exists (get_lifecycle_config tier). split; [reflexivity |].
  intros Hbronze Hsilver. unfold get_lifecycle_config at 1 2.
  rewrite (decide_False (P := tier = "bronze")) by assumption.
  rewrite (decide_False (P := tier = "silver")) by assumption.
  split; reflexivity.
Qed.

Lemma get_lifecycle_config_total_witness :
  transitions_of (get_lifecycle_config "")
  = [[ {| Days := 30; StorageClass := "STANDARD_IA" |} ]] ∧
  get_lifecycle_config "bronz" = get_lifecycle_config "gold".
Proof.
  split.
  - destruct (get_lifecycle_config_total "") as (cfg & <- & Hgold).
    destruct Hgold as [-> _]; [discriminate | discriminate | reflexivity].
  - destruct (get_lifecycle_config_total "bronz") as (cfg & <- & Hgold).
    apply Hgold; discriminate.
Defined.

(** ** Running [create_bucket] against an arbitrary provider *)

Section Runs.

Context {World : Type}.
Variable s3 : World → ApiCall → World * ApiResult.

Lemma bind_run {R A B} (c : Py World R A) (k : A → Py World R B) (m : Machine World) :
  (c ≫= k) m
  = match c m with
    | (Normal a, m') => k a m'
    | (Returned r, m') => (Returned r, m')
    | (Raised e, m') => (Raised e, m')
    end.
Proof. reflexivity. Qed.

(** A guarded request: the answer [Ok] logs the completion message and
    falls through, an error answer runs the handler. *)
Lemma try_invoke {R} (c : ApiCall) (done_msg : string)
    (handler : ClientError → Py World R unit) (m : Machine World) :
  try_except (invoke s3 c;; logger_info done_msg) handler m
  = match s3 (cloud m) c with
    | (w, Ok) =>
        (Normal (), mkMachine w (calls m ++ [c]) (logs m ++ [(INFO, done_msg)]) (files m))
    | (w, Err e) => handler e (mkMachine w (calls m ++ [c]) (logs m) (files m))
    end.
Proof.
  unfold try_except, mbind, Py_bind, bind, invoke, logger_info.
  destruct (s3 (cloud m) c) as [w [|e]]; reflexivity.
Qed.

Lemma invoke_create_request {R} (bucket_name region : string) :
  (if decide (region = "us-east-1")
   then invoke s3 (R := R) (CreateBucket bucket_name None)
   else invoke s3 (CreateBucket bucket_name (Some region)))
  = invoke s3 (create_request bucket_name region).
Proof. unfold create_request. case_decide; reflexivity. Qed.

Lemma create_request_target (bucket_name region : string) :
  target (create_request bucket_name region) = bucket_name ∧
  is_delete (create_request bucket_name region) = false.
Proof. unfold create_request. case_decide; split; reflexivity. Qed.

Lemma create_request_creates (bucket_name region : string) (c : ApiCall) :
  c = create_request bucket_name region →
  match c with CreateBucket _ _ => True | _ => False end.
Proof. intros ->. unfold create_request. case_decide; exact I. Qed.

(** Symbolic execution of [create_bucket]: the statements are run one at a
    time, with a case split on each answer of the provider. *)
Ltac expose_answers :=
  unfold provisions, creation_answer, step_answer, answer;
  cbn [s3_after steps_before config_steps fmap list_fmap forallb step_request
       provisioning_requests].

Ltac ask_provider :=
  match goal with
  | |- context [s3 ?w ?c] =>
      first [is_var w | match w with cloud _ => idtac end];
      destruct (s3 w c) as [? [|?]] eqn:?;
      cbn [fst snd cloud calls logs files is_ok tolerated andb]
  end.

Ltac run_handler :=
  rewrite ?bind_run;
  cbn [logger_error logger_info return_ cloud calls logs files].

Ltac run_create_bucket :=
  expose_answers;
  unfold create_bucket; rewrite invoke_create_request;
  rewrite bind_run; cbn [logger_info cloud calls logs files];
  repeat (rewrite bind_run, try_invoke; cbn [cloud calls logs files];
          ask_provider; [ | try case_decide; run_handler ]);
  cbn [return_ fst snd cloud calls logs files returned];
  rewrite <- ?app_assoc; cbn [app];
  rewrite ?bool_decide_eq_true_2, ?bool_decide_eq_false_2 by assumption.

(** What every run of [create_bucket] looks like: it hands a flag to its
    caller, the flag says whether the provider accepted the provisioning,
    the requests issued are a non-empty prefix of the six provisioning
    requests, and the file system is left alone. *)
Lemma create_bucket_run (bucket_name region tier : string) (m : Machine World) :
  ∃ (n : nat) (m' : Machine World),
    create_bucket s3 bucket_name region tier m
    = (Returned (provisions s3 (cloud m) bucket_name region tier), m') ∧
    (1 ≤ n ≤ 6)%nat ∧
    calls m' = calls m ++ take n (provisioning_requests bucket_name region tier) ∧
    files m' = files m ∧
    (provisions s3 (cloud m) bucket_name region tier = true → n = 6%nat).
Proof.
  run_create_bucket.
  all: let pick n :=
         (exists n; eexists; split; [reflexivity |];
          split; [lia |]; split; [reflexivity |]; split; [reflexivity | done]) in
       first [ pick 6%nat | pick 5%nat | pick 4%nat | pick 3%nat | pick 2%nat | pick 1%nat ].
Qed.

Lemma config_steps_all (k : ConfigStep) : In k config_steps.
Proof. destruct k; cbn; tauto. Qed.

Lemma provisions_true (w : World) (bucket_name region tier : string) :
  provisions s3 w bucket_name region tier = true ↔
    tolerated (creation_answer s3 w bucket_name region) = true ∧
    ∀ k, step_answer s3 w bucket_name region tier k = Ok.
Proof.
  unfold provisions. rewrite andb_true_iff, List.forallb_forall.
  split; intros [Htol Hsteps]; (split; [exact Htol |]).
  - intros k. specialize (Hsteps k (config_steps_all k)).
    destruct (step_answer s3 w bucket_name region tier k); [reflexivity | discriminate].
  - intros k _. rewrite Hsteps. reflexivity.
Qed.

(** Rewriting with the recorded answers of the provider. *)
Ltac recall_answers :=
  repeat (match goal with
          | H : s3 _ _ = _ |- _ => rewrite H
          end; cbn [fst snd is_ok tolerated]).

(** A property of all steps, or of the steps before [k], as a conjunction
    that computes. *)
Lemma each_step (P : ConfigStep → Prop) :
  foldr (λ k, and (P k)) True config_steps → ∀ k, P k.
Proof.
  intros Hall k. apply Forall_fold_right in Hall.
  rewrite Forall_forall in Hall. apply Hall, list_elem_of_In, config_steps_all.
Qed.

Lemma earlier_steps (P : ConfigStep → Prop) (k : ConfigStep) :
  (∀ j, j ∈ steps_before k → P j) ↔ foldr (λ j, and (P j)) True (steps_before k).
Proof. rewrite <- Forall_forall. apply Forall_fold_right. Qed.

(** C7.  The requests of one provisioning are issued in the fixed order
    creation, versioning, encryption, public-access block, the tier's
    lifecycle policy, tagging: what [create_bucket] adds to the call trace
    is a non-empty prefix of that list (so creation comes first and the
    configuration requests are in that order), and it is the whole list
    when the provider accepts the provisioning. *)
Theorem create_bucket_call_order (bucket_name region tier : string) (m : Machine World) :
  ∃ n : nat,
    (1 ≤ n ≤ 6)%nat ∧
    calls (create_bucket s3 bucket_name region tier m).2
    = calls m ++
      take n [ create_request bucket_name region;
               PutBucketVersioning bucket_name "Enabled";
               step_request bucket_name tier Encryption;
               step_request bucket_name tier PublicAccessBlock;
               PutBucketLifecycleConfiguration bucket_name (get_lifecycle_config tier);
               step_request bucket_name tier Tagging ] ∧
    (provisions s3 (cloud m) bucket_name region tier = true → n = 6%nat).
Proof.
  destruct (create_bucket_run bucket_name region tier m)
    as (n & m' & Hrun & Hn & Hcalls & _ & Hfull).
  exists n. rewrite Hrun. cbn [snd]. auto.
Qed.

(** C2.  When the provider answers the creation request with an error, the
    code ['BucketAlreadyOwnedByYou'] is taken as success: the versioning
    request follows and the flag handed back is decided by the five
    configuration steps alone (so it is [True] when they are all accepted,
    as on a re-run against an already provisioned bucket); with any other
    code [create_bucket] hands back [False] right after the creation
    request. *)
Theorem create_bucket_already_owned (bucket_name region tier : string)
    (m : Machine World) (e : ClientError) :
  creation_answer s3 (cloud m) bucket_name region = Err e →
  (error_code e = "BucketAlreadyOwnedByYou" →
     (∃ rest, calls (create_bucket s3 bucket_name region tier m).2
              = calls m ++ create_request bucket_name region
                           :: PutBucketVersioning bucket_name "Enabled" :: rest) ∧
     returned (create_bucket s3 bucket_name region tier m)
     = Some (forallb (λ k, is_ok (step_answer s3 (cloud m) bucket_name region tier k))
                     config_steps)) ∧
  (error_code e ≠ "BucketAlreadyOwnedByYou" →
     returned (create_bucket s3 bucket_name region tier m) = Some false ∧
     calls (create_bucket s3 bucket_name region tier m).2
     = calls m ++ [create_request bucket_name region]).
Proof.
  unfold returned. run_create_bucket.
  all: intros [= <-]; split; intros Hcode; try contradiction.
  all: split; eauto.
Qed.

(** C4.  [create_bucket] always hands a flag to its caller (no
    [ClientError] escapes it).  The flag is [True] exactly when the answer
    to the creation request is tolerated and all five configuration steps
    are answered [Ok].  A configuration step that is reached and answered
    with an error has this error caught and logged in an [ERROR] record,
    which is the last record written, and the flag is [False]. *)
Theorem create_bucket_flag (bucket_name region tier : string) (m : Machine World) :
  (∃ flag : bool, (create_bucket s3 bucket_name region tier m).1 = Returned flag) ∧
  ((create_bucket s3 bucket_name region tier m).1 = Returned true ↔
     tolerated (creation_answer s3 (cloud m) bucket_name region) = true ∧
     ∀ k, step_answer s3 (cloud m) bucket_name region tier k = Ok) ∧
  (∀ (k : ConfigStep) (e : ClientError),
     tolerated (creation_answer s3 (cloud m) bucket_name region) = true →
     (∀ j, j ∈ steps_before k → step_answer s3 (cloud m) bucket_name region tier j = Ok) →
     step_answer s3 (cloud m) bucket_name region tier k = Err e →
     (create_bucket s3 bucket_name region tier m).1 = Returned false ∧
     last (logs (create_bucket s3 bucket_name region tier m).2)
     = Some (step_error_record bucket_name k e)).
Proof.
  split; [| split].
  - destruct (create_bucket_run bucket_name region tier m) as (n & m' & -> & _).
    eauto.
  - destruct (create_bucket_run bucket_name region tier m) as (n & m' & -> & _).
    cbn [fst]. rewrite <- provisions_true.
    split; [intros [= ->]; reflexivity | intros ->; reflexivity].
  - enough (foldr (λ k, and (∀ e : ClientError,
        tolerated (creation_answer s3 (cloud m) bucket_name region) = true →
        foldr (λ j, and (step_answer s3 (cloud m) bucket_name region tier j = Ok))
          True (steps_before k) →
        step_answer s3 (cloud m) bucket_name region tier k = Err e →
        (create_bucket s3 bucket_name region tier m).1 = Returned false ∧
        last (logs (create_bucket s3 bucket_name region tier m).2)
        = Some (step_error_record bucket_name k e))) True config_steps) as Hall.
    { intros k e Htol Hbefore Hk.
      apply (each_step _ Hall k e Htol); [| exact Hk].
      apply earlier_steps, Hbefore. }
    cbn [foldr config_steps steps_before]. unfold step_error_record.
    remember (create_bucket s3 bucket_name region tier m) as out eqn:Hout.
    revert Hout. run_create_bucket.
    all: intros ->; cbn [fst snd logs]; split_and!; try exact I.
    all: intros; destruct_and?; simplify_eq; rewrite ?last_app; done.
Qed.

(** Which steps are attempted: step [k] is, exactly when the answer to the
    creation request was tolerated and every earlier step was answered
    [Ok]. *)
Lemma create_bucket_attempts (bucket_name region tier : string) (m : Machine World) :
  ∃ issued : list ApiCall,
    calls (create_bucket s3 bucket_name region tier m).2 = calls m ++ issued ∧
    Forall (λ c, is_delete c = false) issued ∧
    ∀ k : ConfigStep,
      step_request bucket_name tier k ∈ issued ↔
        tolerated (creation_answer s3 (cloud m) bucket_name region) = true ∧
        ∀ j, j ∈ steps_before k → step_answer s3 (cloud m) bucket_name region tier j = Ok.
Proof.
  pose proof (create_request_target bucket_name region) as [_ Hcreate].
  pose proof (create_request_creates bucket_name region) as Hne.
  enough (∃ issued : list ApiCall,
    calls (create_bucket s3 bucket_name region tier m).2 = calls m ++ issued ∧
    Forall (λ c, is_delete c = false) issued ∧
    foldr (λ k, and (
      step_request bucket_name tier k ∈ issued ↔
        tolerated (creation_answer s3 (cloud m) bucket_name region) = true ∧
        foldr (λ j, and (step_answer s3 (cloud m) bucket_name region tier j = Ok))
          True (steps_before k))) True config_steps)
    as (issued & Hcalls & Hdel & Hall).
  { exists issued. split; [exact Hcalls |]. split; [exact Hdel |].
    intros k. rewrite earlier_steps. revert k. apply each_step, Hall. }
  cbn [foldr config_steps steps_before].
  run_create_bucket.
  all: eexists; split; [reflexivity |].
  all: split; [repeat constructor; exact Hcreate |].
  all: split_and!; try exact I.
  all: split;
    [ intros Hin; apply list_elem_of_In in Hin; cbn [In] in Hin;
      repeat (destruct Hin as [Hin | Hin]);
      first [ discriminate Hin
            | contradiction
            | destruct (Hne _ (eq_sym Hin))
            | repeat split; reflexivity ]
    | intros Hok; destruct_and?;
      first [ by simplify_eq
            | apply list_elem_of_In; cbn [In];
              repeat first [ left; reflexivity | right ] ] ].
Qed.

(** A refused step ends the run: the flag is [False], the request of the
    step is the last one issued and its [ERROR] record the last one
    logged. *)
Lemma create_bucket_stops_at (bucket_name region tier : string) (m : Machine World)
    (k : ConfigStep) (e : ClientError) :
  tolerated (creation_answer s3 (cloud m) bucket_name region) = true →
  (∀ j, j ∈ steps_before k → step_answer s3 (cloud m) bucket_name region tier j = Ok) →
  step_answer s3 (cloud m) bucket_name region tier k = Err e →
  (create_bucket s3 bucket_name region tier m).1 = Returned false ∧
  last (logs (create_bucket s3 bucket_name region tier m).2)
  = Some (step_error_record bucket_name k e) ∧
  calls (create_bucket s3 bucket_name region tier m).2
  = calls m ++ create_request bucket_name region
               :: (step_request bucket_name tier <$> steps_before k)
               ++ [step_request bucket_name tier k].
Proof.
  intros Htol Hbefore Hk. apply earlier_steps in Hbefore.
  revert k e Htol Hbefore Hk.
  enough (foldr (λ k, and (∀ e : ClientError,
      tolerated (creation_answer s3 (cloud m) bucket_name region) = true →
      foldr (λ j, and (step_answer s3 (cloud m) bucket_name region tier j = Ok))
        True (steps_before k) →
      step_answer s3 (cloud m) bucket_name region tier k = Err e →
      (create_bucket s3 bucket_name region tier m).1 = Returned false ∧
      last (logs (create_bucket s3 bucket_name region tier m).2)
      = Some (step_error_record bucket_name k e) ∧
      calls (create_bucket s3 bucket_name region tier m).2
      = calls m ++ create_request bucket_name region
                   :: (step_request bucket_name tier <$> steps_before k)
                   ++ [step_request bucket_name tier k])) True config_steps) as Hall.
  { intros k. apply (each_step _ Hall k). }
  cbn [foldr config_steps steps_before fmap list_fmap app].
  unfold step_error_record.
  remember (create_bucket s3 bucket_name region tier m) as out eqn:Hout.
  revert Hout. run_create_bucket.
  all: intros ->; cbn [fst snd calls logs]; split_and!; try exact I.
  all: intros; destruct_and?; simplify_eq; rewrite ?last_app; done.
Qed.

(** C5, as amended.  A failure is reported and rolls nothing back.  The
    requests already issued stay in the call trace, and what
    [create_bucket] adds to it is a prefix of the six provisioning
    requests, each at most once: no request deletes a bucket, removes a
    configuration or overwrites one with another value.  The steps are not
    independent of each other, though: a configuration step is attempted
    exactly when the answer to the creation request was tolerated and
    every earlier configuration step was answered [Ok]; the first step
    that is refused has its error logged in an [ERROR] record, which is
    the last record written, its request is the last request issued, and
    [create_bucket] hands back [False]. *)
Theorem create_bucket_no_rollback (bucket_name region tier : string) (m : Machine World) :
  ∃ (flag : bool) (n : nat) (issued : list ApiCall),
    (create_bucket s3 bucket_name region tier m).1 = Returned flag ∧
    calls (create_bucket s3 bucket_name region tier m).2 = calls m ++ issued ∧
    issued = take n [ create_request bucket_name region;
                      PutBucketVersioning bucket_name "Enabled";
                      step_request bucket_name tier Encryption;
                      step_request bucket_name tier PublicAccessBlock;
                      PutBucketLifecycleConfiguration bucket_name
                        (get_lifecycle_config tier);
                      step_request bucket_name tier Tagging ] ∧
    NoDup issued ∧
    Forall (λ c, is_delete c = false) issued ∧
    (∀ k : ConfigStep,
       step_request bucket_name tier k ∈ issued ↔
         tolerated (creation_answer s3 (cloud m) bucket_name region) = true ∧
         ∀ j, j ∈ steps_before k →
              step_answer s3 (cloud m) bucket_name region tier j = Ok) ∧
    (∀ (k : ConfigStep) (e : ClientError),
       tolerated (creation_answer s3 (cloud m) bucket_name region) = true →
       (∀ j, j ∈ steps_before k →
             step_answer s3 (cloud m) bucket_name region tier j = Ok) →
       step_answer s3 (cloud m) bucket_name region tier k = Err e →
       flag = false ∧
       last (logs (create_bucket s3 bucket_name region tier m).2)
       = Some (step_error_record bucket_name k e) ∧
       issued = create_request bucket_name region
                :: (step_request bucket_name tier <$> steps_before k)
                ++ [step_request bucket_name tier k]).
Proof.
  destruct (create_bucket_run bucket_name region tier m)
    as (n & m' & Hrun & _ & Hprefix & _).
  destruct (create_bucket_attempts bucket_name region tier m)
    as (issued & Hcalls & Hdel & Hattempts).
  assert (issued = take n (provisioning_requests bucket_name region tier)) as Hissued.
  { rewrite Hrun in Hcalls. cbn [snd] in Hcalls. rewrite Hprefix in Hcalls.
    apply app_inv_head in Hcalls. symmetry. exact Hcalls. }
  exists (provisions s3 (cloud m) bucket_name region tier), n, issued.
  split; [rewrite Hrun; reflexivity |].
  split; [exact Hcalls |]. split; [exact Hissued |].
  split.
  { rewrite Hissued. eapply sublist_NoDup; [| apply sublist_take].
    unfold provisioning_requests, create_request. cbn [fmap list_fmap config_steps].
    case_decide;
      repeat (apply NoDup_cons; split;
              [ intros Hin; apply list_elem_of_In in Hin; cbn [In] in Hin;
                intuition discriminate | ]);
      apply NoDup_nil_2. }
  split; [exact Hdel |]. split; [exact Hattempts |].
  intros k e Htol Hbefore Hk.
  destruct (create_bucket_stops_at bucket_name region tier m k e Htol Hbefore Hk)
    as (Hflag & Hlast & Hstop).
  split; [| split; [exact Hlast |]].
  - rewrite Hrun in Hflag. injection Hflag as ->. reflexivity.
  - rewrite Hcalls in Hstop. apply app_inv_head in Hstop. exact Hstop.
Qed.

(** ** Further properties of [create_bucket] *)

(** A full run, as accepted by the provider. *)
Lemma create_bucket_accepted (bucket_name region tier : string) (m : Machine World) :
  provisions s3 (cloud m) bucket_name region tier = true →
  (create_bucket s3 bucket_name region tier m).1 = Returned true ∧
  calls (create_bucket s3 bucket_name region tier m).2
  = calls m ++ provisioning_requests bucket_name region tier ∧
  logs (create_bucket s3 bucket_name region tier m).2
  = logs m ++ entry_record bucket_name tier
             :: creation_record bucket_name (creation_answer s3 (cloud m) bucket_name region)
             :: (step_done_record bucket_name tier <$> config_steps).
Proof.
  remember (create_bucket s3 bucket_name region tier m) as out eqn:Hout.
  revert Hout. unfold entry_record. run_create_bucket.
  all: intros -> Hp; try discriminate Hp.
  all: cbn [fst snd calls logs creation_record step_done_record].
  all: rewrite ?decide_True by assumption.
  all: repeat split.
Qed.

(** The log grows by one record per request and the entry record; it gets
    an [ERROR] record exactly when the flag is [False], and then only as
    its last record. *)
Lemma create_bucket_logged (bucket_name region tier : string) (m : Machine World) :
  ∃ (issued : list ApiCall) (logged : list LogRecord),
    calls (create_bucket s3 bucket_name region tier m).2 = calls m ++ issued ∧
    logs (create_bucket s3 bucket_name region tier m).2 = logs m ++ logged ∧
    length logged = S (length issued) ∧
    errors logged
    = (if provisions s3 (cloud m) bucket_name region tier then 0%nat else 1%nat) ∧
    errors (removelast logged) = 0%nat.
Proof.
  remember (create_bucket s3 bucket_name region tier m) as out eqn:Hout.
  revert Hout. run_create_bucket.
  all: intros ->; cbn [snd calls logs].
  all: eexists _, _; split; [reflexivity |]; split; [reflexivity |].
  all: repeat split.
Qed.

(** X2.  The first request of [create_bucket] creates the bucket; it names
    the region as location constraint, except for the region us-east-1,
    for which no bucket configuration is sent at all. *)
Theorem create_bucket_first_request (bucket_name region tier : string)
    (m : Machine World) :
  (region = "us-east-1" →
     ∃ rest, calls (create_bucket s3 bucket_name region tier m).2
             = calls m ++ CreateBucket bucket_name None :: rest) ∧
  (region ≠ "us-east-1" →
     ∃ rest, calls (create_bucket s3 bucket_name region tier m).2
             = calls m ++ CreateBucket bucket_name (Some region) :: rest).
Proof.
  destruct (create_bucket_run bucket_name region tier m)
    as (n & m' & -> & [Hn _] & Hcalls & _).
  cbn [snd]. rewrite Hcalls.
  destruct n as [| n]; [lia |].
  unfold provisioning_requests, create_request. cbn [take].
  split; intros Hregion.
  - rewrite decide_True by exact Hregion. eauto.
  - rewrite decide_False by exact Hregion. eauto.
Qed.

(** X3.  [create_bucket] only talks about the bucket it is given, and it
    leaves the file system alone: every request it issues is addressed to
    [bucket_name], and the files are the same after the call. *)
Theorem create_bucket_confined (bucket_name region tier : string) (m : Machine World) :
  ∃ issued : list ApiCall,
    calls (create_bucket s3 bucket_name region tier m).2 = calls m ++ issued ∧
    Forall (λ c, target c = bucket_name) issued ∧
    files (create_bucket s3 bucket_name region tier m).2 = files m.
Proof.
  destruct (create_bucket_run bucket_name region tier m)
    as (n & m' & -> & _ & Hcalls & Hfiles & _).
  cbn [snd]. eexists. split; [exact Hcalls |]. split; [| exact Hfiles].
  apply Forall_take.
  assert (Forall (λ c, target c = bucket_name)
            (step_request bucket_name tier <$> config_steps)) as Hsteps
    by (repeat constructor).
  unfold provisioning_requests. apply Forall_cons. split; [| exact Hsteps].
  apply create_request_target.
Qed.

(** X4.  When the provider accepts the whole provisioning, [create_bucket]
    returns [True], has issued exactly the six requests, and has logged
    the entry record, the record of the creation answer and one completion
    record per step, all of them [INFO]. *)
Theorem create_bucket_accepted_run (bucket_name region tier : string)
    (m : Machine World) :
  tolerated (creation_answer s3 (cloud m) bucket_name region) = true →
  (∀ k, step_answer s3 (cloud m) bucket_name region tier k = Ok) →
  (create_bucket s3 bucket_name region tier m).1 = Returned true ∧
  calls (create_bucket s3 bucket_name region tier m).2
  = calls m ++ create_request bucket_name region
               :: (step_request bucket_name tier <$> config_steps) ∧
  logs (create_bucket s3 bucket_name region tier m).2
  = logs m ++ entry_record bucket_name tier
             :: creation_record bucket_name (creation_answer s3 (cloud m) bucket_name region)
             :: (step_done_record bucket_name tier <$> config_steps) ∧
  errors (drop (length (logs m)) (logs (create_bucket s3 bucket_name region tier m).2))
  = 0%nat.
Proof.
  intros Htol Hsteps.
  assert (provisions s3 (cloud m) bucket_name region tier = true) as Hp
    by (apply provisions_true; auto).
  destruct (create_bucket_accepted bucket_name region tier m Hp) as (Hflag & Hcalls & Hlogs).
  split; [exact Hflag |]. split; [exact Hcalls |]. split; [exact Hlogs |].
  rewrite Hlogs, drop_app_length.
  unfold creation_record.
  destruct (creation_answer s3 (cloud m) bucket_name region) as [| e]; [reflexivity |].
  cbn [tolerated] in Htol. apply bool_decide_eq_true_1 in Htol.
  rewrite decide_True by exact Htol. reflexivity.
Qed.

(** X5.  When step [k] is the first one the provider refuses, the run stops
    there: the requests issued are creation and the steps up to [k], and
    the log holds the entry record, the record of the creation answer, one
    completion record per earlier step and the [ERROR] record of [k]. *)
Theorem create_bucket_refused_step (bucket_name region tier : string)
    (m : Machine World) (k : ConfigStep) (e : ClientError) :
  tolerated (creation_answer s3 (cloud m) bucket_name region) = true →
  (∀ j, j ∈ steps_before k → step_answer s3 (cloud m) bucket_name region tier j = Ok) →
  step_answer s3 (cloud m) bucket_name region tier k = Err e →
  calls (create_bucket s3 bucket_name region tier m).2
  = calls m ++ create_request bucket_name region
               :: (step_request bucket_name tier <$> steps_before k)
               ++ [step_request bucket_name tier k] ∧
  logs (create_bucket s3 bucket_name region tier m).2
  = logs m ++ entry_record bucket_name tier
             :: creation_record bucket_name (creation_answer s3 (cloud m) bucket_name region)
             :: (step_done_record bucket_name tier <$> steps_before k)
             ++ [step_error_record bucket_name k e].
Proof.
  intros Htol Hbefore Hk. apply earlier_steps in Hbefore.
  revert k e Htol Hbefore Hk.
  enough (foldr (λ k, and (∀ e : ClientError,
      tolerated (creation_answer s3 (cloud m) bucket_name region) = true →
      foldr (λ j, and (step_answer s3 (cloud m) bucket_name region tier j = Ok))
        True (steps_before k) →
      step_answer s3 (cloud m) bucket_name region tier k = Err e →
      calls (create_bucket s3 bucket_name region tier m).2
      = calls m ++ create_request bucket_name region
                   :: (step_request bucket_name tier <$> steps_before k)
                   ++ [step_request bucket_name tier k] ∧
      logs (create_bucket s3 bucket_name region tier m).2
      = logs m ++ entry_record bucket_name tier
                 :: creation_record bucket_name
                      (creation_answer s3 (cloud m) bucket_name region)
                 :: (step_done_record bucket_name tier <$> steps_before k)
                 ++ [step_error_record bucket_name k e])) True config_steps) as Hall.
  { intros k. apply (each_step _ Hall k). }
  cbn [foldr config_steps steps_before fmap list_fmap app].
  unfold step_error_record, entry_record.
  cbn [step_done_record].
  remember (create_bucket s3 bucket_name region tier m) as out eqn:Hout.
  revert Hout. run_create_bucket.
  all: intros ->; cbn [fst snd calls logs creation_record]; split_and!; try exact I.
  all: intros; destruct_and?; simplify_eq; rewrite ?decide_True by assumption.
  all: split; reflexivity.
Qed.

(** X6.  When the provider refuses the creation with a code other than
    ['BucketAlreadyOwnedByYou'], [create_bucket] stops at once: the final
    state has the creation request as only new request and the entry
    record and the [ERROR] record of the creation as only new records. *)
Theorem create_bucket_refused_creation (bucket_name region tier : string)
    (m : Machine World) (e : ClientError) :
  creation_answer s3 (cloud m) bucket_name region = Err e →
  error_code e ≠ "BucketAlreadyOwnedByYou" →
  create_bucket s3 bucket_name region tier m
  = (Returned false,
     mkMachine (s3 (cloud m) (create_request bucket_name region)).1
       (calls m ++ [create_request bucket_name region])
       (logs m ++ [ (INFO, "Creating " +:+ tier +:+ " tier bucket: " +:+ bucket_name);
                    (ERROR, "Error creating bucket " +:+ bucket_name +:+ ": "
                              +:+ error_text e) ])
       (files m)).
Proof.
  run_create_bucket.
  all: intros [= <-] Hcode; try contradiction.
  reflexivity.
Qed.

(** X7.  Every request is logged: the log grows by the entry record and one
    record per request issued.  It gets an [ERROR] record exactly when the
    flag handed back is [False], a single one, and always as the last
    record. *)
Theorem create_bucket_error_records (bucket_name region tier : string)
    (m : Machine World) :
  ∃ (flag : bool) (issued : list ApiCall) (logged : list LogRecord),
    (create_bucket s3 bucket_name region tier m).1 = Returned flag ∧
    calls (create_bucket s3 bucket_name region tier m).2 = calls m ++ issued ∧
    logs (create_bucket s3 bucket_name region tier m).2 = logs m ++ logged ∧
    length logged = S (length issued) ∧
    errors logged = (if flag then 0%nat else 1%nat) ∧
    errors (removelast logged) = 0%nat.
Proof.
  destruct (create_bucket_logged bucket_name region tier m)
    as (issued & logged & Hcalls & Hlogs & Hlen & Herr & Hlast).
  destruct (create_bucket_run bucket_name region tier m) as (n & m' & Hrun & _).
  exists (provisions s3 (cloud m) bucket_name region tier), issued, logged.
  rewrite Hrun in *. cbn [fst snd] in *. auto 10.
Qed.

(** X8.  [create_bucket] does not validate the tier: for a tier other than
    "bronze" and "silver" an accepted run sends the lifecycle policy of the
    gold tier and tags the bucket with the tier string as it was given. *)
Theorem create_bucket_unknown_tier (bucket_name region tier : string)
    (m : Machine World) :
  tier ≠ "bronze" → tier ≠ "silver" →
  provisions s3 (cloud m) bucket_name region tier = true →
  calls (create_bucket s3 bucket_name region tier m).2
  = calls m ++
    [ create_request bucket_name region;
      PutBucketVersioning bucket_name "Enabled";
      PutBucketEncryption bucket_name
        [ {| SSEAlgorithm := "AES256"; BucketKeyEnabled := true |} ];
      PutPublicAccessBlock bucket_name
        {| BlockPublicAcls := true; IgnorePublicAcls := true;
           BlockPublicPolicy := true; RestrictPublicBuckets := true |};
      PutBucketLifecycleConfiguration bucket_name
        {| Rules := [ {| ID := "Move to IA"; Status := "Enabled"; Filter_Prefix := "";
                         Transitions :=
                           [ {| Days := 30; StorageClass := "STANDARD_IA" |} ] |} ] |};
      PutBucketTagging bucket_name
        [ {| Key := "Project"; Value := "PatientOutcomePrediction" |};
          {| Key := "Environment"; Value := "dev" |};
          {| Key := "DataTier"; Value := tier |};
          {| Key := "Contains-PHI"; Value := "True" |};
          {| Key := "Compliance"; Value := "HIPAA" |} ] ].
Proof.
  intros Hbronze Hsilver Hp.
  destruct (create_bucket_accepted bucket_name region tier m Hp) as (_ & -> & _).
  unfold provisioning_requests. cbn [fmap list_fmap config_steps step_request].
  unfold get_lifecycle_config.
  rewrite (decide_False (P := tier = "bronze")) by assumption.
  rewrite (decide_False (P := tier = "silver")) by assumption.
  reflexivity.
Qed.

End Runs.

(** ** Running [create_data_lake] *)

Section DataLake.

Context {World : Type}.
Variable s3 : World → ApiCall → World * ApiResult.

(** The routine is the three invocations in a row followed by the report:
    the flag is the conjunction of the three flags, and the summary file
    is written on success only. *)
Lemma create_data_lake_run (m : Machine World) :
  ∃ b1 b2 b3 : bool,
    (bronze_run s3 m).1 = Returned b1 ∧
    (silver_run s3 m).1 = Returned b2 ∧
    (gold_run s3 m).1 = Returned b3 ∧
    create_data_lake s3 m
    = (Returned (b1 && b2 && b3),
       let m3 := (gold_run s3 m).2 in
       if b1 && b2 && b3
       then mkMachine (cloud m3) (calls m3) (logs m3 ++ success_records)
              (<["data_lake_config.json" := summary_document]> (files m3))
       else mkMachine (cloud m3) (calls m3) (logs m3 ++ [failure_record]) (files m3)).
Proof.
  unfold gold_run, silver_run, bronze_run.
  unfold create_data_lake. cbn [for_in].
  unfold mbind, Py_bind, bind, call, mret, Py_ret, ret. cbn beta.
  destruct (create_bucket_run s3 BRONZE_BUCKET AWS_REGION "bronze" m)
    as (n1 & m1 & -> & _).
  generalize (provisions s3 (cloud m) BRONZE_BUCKET AWS_REGION "bronze").
  intros b1. exists b1. destruct b1; cbn [negb fst snd truthy].
  all: destruct (create_bucket_run s3 SILVER_BUCKET AWS_REGION "silver" m1)
    as (n2 & m2 & -> & _).
  all: generalize (provisions s3 (cloud m1) SILVER_BUCKET AWS_REGION "silver").
  all: intros b2; exists b2; destruct b2; cbn [negb fst snd truthy].
  all: destruct (create_bucket_run s3 GOLD_BUCKET AWS_REGION "gold" m2)
    as (n3 & m3 & -> & _).
  all: generalize (provisions s3 (cloud m2) GOLD_BUCKET AWS_REGION "gold").
  all: intros b3; exists b3; destruct b3; split_and!; try reflexivity.
  all: unfold logger_info, logger_error, json_dump_to, return_.
  all: cbn [negb truthy andb fst snd cloud calls logs files].
  all: rewrite <- ?app_assoc; reflexivity.
Qed.

Lemma provisioning_requests_shape (bucket_name region tier : string) :
  Forall (λ c, target c = bucket_name ∧ is_delete c = false)
    (provisioning_requests bucket_name region tier) ∧
  NoDup (provisioning_requests bucket_name region tier).
Proof.
  unfold provisioning_requests, create_request. cbn [fmap list_fmap config_steps].
  split.
  - case_decide; repeat constructor.
  - case_decide;
      repeat (apply NoDup_cons; split;
              [ intros Hin; apply list_elem_of_In in Hin; cbn [In] in Hin;
                intuition discriminate | ]);
      apply NoDup_nil_2.
Qed.

Lemma provisioning_prefix_creates (bucket_name region tier : string) (n : nat) :
  (1 ≤ n)%nat →
  List.filter is_create (take n (provisioning_requests bucket_name region tier))
  = [create_request bucket_name region].
Proof.
  intros Hn. destruct n as [| n]; [lia |].
  unfold provisioning_requests, create_request.
  cbn [fmap list_fmap config_steps].
  case_decide; do 5 (destruct n as [| n]; [reflexivity |]); destruct n; reflexivity.
Qed.

(** The call trace and the file system along the three invocations. *)
Lemma data_lake_trace (m : Machine World) :
  ∃ n1 n2 n3 : nat,
    (1 ≤ n1)%nat ∧ (1 ≤ n2)%nat ∧ (1 ≤ n3)%nat ∧
    calls (bronze_run s3 m).2
    = calls m ++ take n1 (provisioning_requests BRONZE_BUCKET AWS_REGION "bronze") ∧
    calls (silver_run s3 m).2
    = calls (bronze_run s3 m).2
      ++ take n2 (provisioning_requests SILVER_BUCKET AWS_REGION "silver") ∧
    calls (gold_run s3 m).2
    = calls (silver_run s3 m).2
      ++ take n3 (provisioning_requests GOLD_BUCKET AWS_REGION "gold") ∧
    files (gold_run s3 m).2 = files m.
Proof.
  unfold gold_run, silver_run, bronze_run.
  destruct (create_bucket_run s3 BRONZE_BUCKET AWS_REGION "bronze" m)
    as (n1 & m1 & -> & [Hn1 _] & Hc1 & Hf1 & _).
  destruct (create_bucket_run s3 SILVER_BUCKET AWS_REGION "silver" m1)
    as (n2 & m2 & E2 & [Hn2 _] & Hc2 & Hf2 & _).
  destruct (create_bucket_run s3 GOLD_BUCKET AWS_REGION "gold" m2)
    as (n3 & m3 & E3 & [Hn3 _] & Hc3 & Hf3 & _).
  cbn [snd]. rewrite E2. cbn [snd]. rewrite E3. cbn [snd].
  exists n1, n2, n3. split_and!; try assumption. congruence.
Qed.

Lemma create_data_lake_state (m : Machine World) :
  calls (create_data_lake s3 m).2 = calls (gold_run s3 m).2 ∧
  (files (create_data_lake s3 m).2
   = match (create_data_lake s3 m).1 with
     | Returned true =>
         <["data_lake_config.json" := summary_document]> (files (gold_run s3 m).2)
     | _ => files (gold_run s3 m).2
     end).
Proof.
  destruct (create_data_lake_run m) as (b1 & b2 & b3 & _ & _ & _ & ->).
  cbn [fst snd]. destruct (b1 && b2 && b3); split; reflexivity.
Qed.

(** The three invocations as blocks of the call trace: each block is a
    non-empty prefix of the provisioning requests of its tier, and the
    whole list when the invocation hands back [True]. *)
Lemma data_lake_blocks (m : Machine World) :
  ∃ (b1 b2 b3 : bool) (n1 n2 n3 : nat),
    (bronze_run s3 m).1 = Returned b1 ∧
    (silver_run s3 m).1 = Returned b2 ∧
    (gold_run s3 m).1 = Returned b3 ∧
    (1 ≤ n1 ≤ 6)%nat ∧ (1 ≤ n2 ≤ 6)%nat ∧ (1 ≤ n3 ≤ 6)%nat ∧
    (b1 = false ∨ n1 = 6%nat) ∧ (b2 = false ∨ n2 = 6%nat) ∧ (b3 = false ∨ n3 = 6%nat) ∧
    calls (bronze_run s3 m).2
    = calls m ++ take n1 (provisioning_requests BRONZE_BUCKET AWS_REGION "bronze") ∧
    calls (silver_run s3 m).2
    = calls (bronze_run s3 m).2
      ++ take n2 (provisioning_requests SILVER_BUCKET AWS_REGION "silver") ∧
    calls (gold_run s3 m).2
    = calls (silver_run s3 m).2
      ++ take n3 (provisioning_requests GOLD_BUCKET AWS_REGION "gold").
Proof.
  unfold gold_run, silver_run, bronze_run.
  destruct (create_bucket_run s3 BRONZE_BUCKET AWS_REGION "bronze" m)
    as (n1 & m1 & -> & Hn1 & Hc1 & _ & Hf1).
  cbn [fst snd].
  destruct (create_bucket_run s3 SILVER_BUCKET AWS_REGION "silver" m1)
    as (n2 & m2 & -> & Hn2 & Hc2 & _ & Hf2).
  cbn [fst snd].
  destruct (create_bucket_run s3 GOLD_BUCKET AWS_REGION "gold" m2)
    as (n3 & m3 & -> & Hn3 & Hc3 & _ & Hf3).
  cbn [fst snd].
  eexists _, _, _, n1, n2, n3.
  split; [reflexivity |]. split; [reflexivity |]. split; [reflexivity |].
  split; [exact Hn1 |]. split; [exact Hn2 |]. split; [exact Hn3 |].
  split; [destruct (provisions s3 (cloud m) _ _ _); auto |].
  split; [destruct (provisions s3 (cloud m1) _ _ _); auto |].
  split; [destruct (provisions s3 (cloud m2) _ _ _); auto |].
  auto.
Qed.

(** C6.  [create_data_lake] is the invocation of [create_bucket] for
    bronze, then for silver, then for gold, each starting in the state the
    one before it left, whatever flags they hand back, followed by the
    report; it returns the conjunction of the three flags, so [True]
    exactly when all three are [True].  Its call trace grows by the three
    blocks of requests of these invocations and by nothing else: each
    block is a non-empty prefix of the six provisioning requests of its
    tier (all six when the flag is [True]), so every tier is attempted,
    there is exactly one creation request per tier (none is retried), and
    no request deletes or reverts anything (nothing is rolled back). *)
Theorem create_data_lake_aggregates (m : Machine World) :
  ∃ (b1 b2 b3 : bool) (n1 n2 n3 : nat) (t1 t2 t3 issued : list ApiCall),
    (bronze_run s3 m).1 = Returned b1 ∧
    (silver_run s3 m).1 = Returned b2 ∧
    (gold_run s3 m).1 = Returned b3 ∧
    (create_data_lake s3 m).1 = Returned (b1 && b2 && b3) ∧
    create_data_lake s3 m
    = (Returned (b1 && b2 && b3),
       let m3 := (gold_run s3 m).2 in
       if b1 && b2 && b3
       then mkMachine (cloud m3) (calls m3) (logs m3 ++ success_records)
              (<["data_lake_config.json" := summary_document]> (files m3))
       else mkMachine (cloud m3) (calls m3) (logs m3 ++ [failure_record]) (files m3)) ∧
    calls (bronze_run s3 m).2 = calls m ++ t1 ∧
    calls (silver_run s3 m).2 = calls (bronze_run s3 m).2 ++ t2 ∧
    calls (gold_run s3 m).2 = calls (silver_run s3 m).2 ++ t3 ∧
    t1 = take n1 (provisioning_requests "patient-outcome-dev-bronze-data"
                    "us-west-2" "bronze") ∧
    t2 = take n2 (provisioning_requests "patient-outcome-dev-silver-data"
                    "us-west-2" "silver") ∧
    t3 = take n3 (provisioning_requests "patient-outcome-dev-gold-data"
                    "us-west-2" "gold") ∧
    (1 ≤ n1 ≤ 6)%nat ∧ (1 ≤ n2 ≤ 6)%nat ∧ (1 ≤ n3 ≤ 6)%nat ∧
    (b1 = false ∨ n1 = 6%nat) ∧ (b2 = false ∨ n2 = 6%nat) ∧ (b3 = false ∨ n3 = 6%nat) ∧
    issued = t1 ++ t2 ++ t3 ∧
    calls (create_data_lake s3 m).2 = calls m ++ issued ∧
    List.filter is_create issued
    = [ CreateBucket "patient-outcome-dev-bronze-data" (Some "us-west-2");
        CreateBucket "patient-outcome-dev-silver-data" (Some "us-west-2");
        CreateBucket "patient-outcome-dev-gold-data" (Some "us-west-2") ] ∧
    Forall (λ c, is_delete c = false) issued.
Proof.
  destruct (create_data_lake_run m) as (b1 & b2 & b3 & H1 & H2 & H3 & Hrun).
  destruct (data_lake_blocks m)
    as (b1' & b2' & b3' & n1 & n2 & n3 & H1' & H2' & H3'
        & Hn1 & Hn2 & Hn3 & Hf1 & Hf2 & Hf3 & Hc1 & Hc2 & Hc3).
  rewrite H1 in H1'. injection H1' as <-.
  rewrite H2 in H2'. injection H2' as <-.
  rewrite H3 in H3'. injection H3' as <-.
  destruct (create_data_lake_state m) as [Hcalls _].
  exists b1, b2, b3, n1, n2, n3.
  eexists _, _, _, _.
  split; [exact H1 |]. split; [exact H2 |]. split; [exact H3 |].
  split; [rewrite Hrun; reflexivity |]. split; [exact Hrun |].
  split; [exact Hc1 |]. split; [exact Hc2 |]. split; [exact Hc3 |].
  split; [reflexivity |]. split; [reflexivity |]. split; [reflexivity |].
  split; [exact Hn1 |]. split; [exact Hn2 |]. split; [exact Hn3 |].
  split; [exact Hf1 |]. split; [exact Hf2 |]. split; [exact Hf3 |].
  split; [reflexivity |].
  split; [| split].
  - rewrite Hcalls, Hc3, Hc2, Hc1, <- !app_assoc. reflexivity.
  - destruct Hn1 as [Hn1 _], Hn2 as [Hn2 _], Hn3 as [Hn3 _].
    rewrite !List.filter_app, !provisioning_prefix_creates by assumption.
    reflexivity.
  - rewrite !Forall_app. split_and!; apply Forall_take.
    all: eapply Forall_impl; [apply provisioning_requests_shape |].
    all: cbn beta; tauto.
Qed.

(** C10.  The summary file is written exactly when all three invocations
    hand back [True]: then [data_lake_config.json] is replaced by the
    summary document and the routine returns [True]; otherwise the file
    system is exactly what it was before the run (no partial summary) and
    the routine returns [False]. *)
Theorem create_data_lake_summary_iff (m : Machine World) :
  ∃ b1 b2 b3 : bool,
    (bronze_run s3 m).1 = Returned b1 ∧
    (silver_run s3 m).1 = Returned b2 ∧
    (gold_run s3 m).1 = Returned b3 ∧
    create_data_lake s3 m
    = (Returned (b1 && b2 && b3), (create_data_lake s3 m).2) ∧
    files (create_data_lake s3 m).2
    = if b1 && b2 && b3
      then <["data_lake_config.json" := summary_document]> (files m)
      else files m.
Proof.
  destruct (create_data_lake_run m) as (b1 & b2 & b3 & H1 & H2 & H3 & Hrun).
  destruct (data_lake_trace m) as (n1 & n2 & n3 & _ & _ & _ & _ & _ & _ & Hfiles).
  exists b1, b2, b3. split_and!; try assumption.
  - rewrite Hrun. reflexivity.
  - rewrite Hrun. cbn [snd]. destruct (b1 && b2 && b3); cbn [files]; rewrite Hfiles;
      reflexivity.
Qed.

(** C3.  When [create_data_lake] returns [True], the file
    [data_lake_config.json] holds a document whose keys are exactly
    project, environment, region and buckets, and whose buckets object
    maps exactly bronze, silver and gold to the three bucket names. *)
Theorem create_data_lake_summary (m : Machine World) :
  (create_data_lake s3 m).1 = Returned true →
  ∃ doc : Json,
    files (create_data_lake s3 m).2 !! "data_lake_config.json" = Some doc ∧
    json_keys doc = ["project"; "environment"; "region"; "buckets"] ∧
    json_get "project" doc = Some (JString "patient-outcome") ∧
    json_get "environment" doc = Some (JString "dev") ∧
    json_get "region" doc = Some (JString "us-west-2") ∧
    json_get "buckets" doc
    = Some (JObject [ ("bronze", JString "patient-outcome-dev-bronze-data");
                      ("silver", JString "patient-outcome-dev-silver-data");
                      ("gold", JString "patient-outcome-dev-gold-data") ]).
Proof.
  intros Htrue.
  destruct (create_data_lake_state m) as [_ Hfiles].
  rewrite Htrue in Hfiles.
  exists summary_document. split.
  - rewrite Hfiles. apply lookup_insert_eq.
  - repeat split.
Qed.

(** C9.  The call trace of a run of [create_data_lake] grows by three
    blocks, one per invocation of [create_bucket]; a block only holds
    requests addressed to the bucket of its invocation, so no bucket gets a
    request once its invocation is over; no request deletes a bucket or
    removes a configuration; and no request is issued twice. *)
Theorem create_data_lake_monotone (m : Machine World) :
  ∃ t1 t2 t3 : list ApiCall,
    calls (bronze_run s3 m).2 = calls m ++ t1 ∧
    calls (silver_run s3 m).2 = calls (bronze_run s3 m).2 ++ t2 ∧
    calls (gold_run s3 m).2 = calls (silver_run s3 m).2 ++ t3 ∧
    calls (create_data_lake s3 m).2 = calls m ++ t1 ++ t2 ++ t3 ∧
    Forall (λ c, target c = "patient-outcome-dev-bronze-data") t1 ∧
    Forall (λ c, target c = "patient-outcome-dev-silver-data") t2 ∧
    Forall (λ c, target c = "patient-outcome-dev-gold-data") t3 ∧
    Forall (λ c, target c ≠ "patient-outcome-dev-bronze-data") (t2 ++ t3) ∧
    Forall (λ c, target c ≠ "patient-outcome-dev-silver-data") t3 ∧
    Forall (λ c, is_delete c = false) (t1 ++ t2 ++ t3) ∧
    NoDup (t1 ++ t2 ++ t3).
Proof.
  destruct (data_lake_trace m)
    as (n1 & n2 & n3 & _ & _ & _ & Hc1 & Hc2 & Hc3 & _).
  destruct (create_data_lake_state m) as [Hcalls _].
  pose proof (provisioning_requests_shape BRONZE_BUCKET AWS_REGION "bronze") as [Hs1 Hd1].
  pose proof (provisioning_requests_shape SILVER_BUCKET AWS_REGION "silver") as [Hs2 Hd2].
  pose proof (provisioning_requests_shape GOLD_BUCKET AWS_REGION "gold") as [Hs3 Hd3].
  apply (Forall_take _ n1) in Hs1. apply (Forall_take _ n2) in Hs2.
  apply (Forall_take _ n3) in Hs3.
  eapply sublist_NoDup in Hd1; [| apply (sublist_take _ n1)].
  eapply sublist_NoDup in Hd2; [| apply (sublist_take _ n2)].
  eapply sublist_NoDup in Hd3; [| apply (sublist_take _ n3)].
  revert Hc1 Hc2 Hc3 Hs1 Hs2 Hs3 Hd1 Hd2 Hd3.
  generalize (take n1 (provisioning_requests BRONZE_BUCKET AWS_REGION "bronze")).
  generalize (take n2 (provisioning_requests SILVER_BUCKET AWS_REGION "silver")).
  generalize (take n3 (provisioning_requests GOLD_BUCKET AWS_REGION "gold")).
  intros t3 t2 t1 Hc1 Hc2 Hc3 Hs1 Hs2 Hs3 Hd1 Hd2 Hd3.
  change BRONZE_BUCKET with "patient-outcome-dev-bronze-data" in Hs1.
  change SILVER_BUCKET with "patient-outcome-dev-silver-data" in Hs2.
  change GOLD_BUCKET with "patient-outcome-dev-gold-data" in Hs3.
  exists t1, t2, t3.
  split_and!; try assumption.
  - rewrite Hcalls, Hc3, Hc2, Hc1, <- !app_assoc. reflexivity.
  - eapply Forall_impl; [exact Hs1 |]. cbn beta. tauto.
  - eapply Forall_impl; [exact Hs2 |]. cbn beta. tauto.
  - eapply Forall_impl; [exact Hs3 |]. cbn beta. tauto.
  - apply Forall_app. split.
    + eapply Forall_impl; [exact Hs2 |]. cbn beta. intros c [-> _]. discriminate.
    + eapply Forall_impl; [exact Hs3 |]. cbn beta. intros c [-> _]. discriminate.
  - eapply Forall_impl; [exact Hs3 |]. cbn beta. intros c [-> _]. discriminate.
  - rewrite !Forall_app. split_and!.
    + eapply Forall_impl; [exact Hs1 |]. cbn beta. tauto.
    + eapply Forall_impl; [exact Hs2 |]. cbn beta. tauto.
    + eapply Forall_impl; [exact Hs3 |]. cbn beta. tauto.
  - rewrite Forall_forall in Hs1, Hs2, Hs3.
    apply NoDup_app. split; [exact Hd1 |]. split.
    + intros c Hin1 Hin. apply Hs1 in Hin1 as [Ht1 _].
      apply elem_of_app in Hin as [Hin | Hin].
      * apply Hs2 in Hin as [Ht2 _]. rewrite Ht1 in Ht2. discriminate.
      * apply Hs3 in Hin as [Ht3 _]. rewrite Ht1 in Ht3. discriminate.
    + apply NoDup_app. split; [exact Hd2 |]. split; [| exact Hd3].
      intros c Hin2 Hin3. apply Hs2 in Hin2 as [Ht2 _].
      apply Hs3 in Hin3 as [Ht3 _]. rewrite Ht2 in Ht3. discriminate.
Qed.

(** ** Further properties of [create_data_lake] *)

Lemma errors_app (l1 l2 : list LogRecord) :
  errors (l1 ++ l2) = (errors l1 + errors l2)%nat.
Proof. unfold errors. rewrite List.filter_app, length_app. reflexivity. Qed.

Lemma create_bucket_flag_provisions (bucket_name region tier : string)
    (m : Machine World) (flag : bool) :
  (create_bucket s3 bucket_name region tier m).1 = Returned flag →
  provisions s3 (cloud m) bucket_name region tier = flag.
Proof.
  destruct (create_bucket_run s3 bucket_name region tier m) as (n & m' & -> & _).
  intros [= ->]. reflexivity.
Qed.

(** X9.  The flag of [create_data_lake] in terms of the provider: it is
    [True] exactly when the provider accepts the provisioning of the bronze
    bucket, then, in the state this leaves, of the silver bucket, and then
    of the gold bucket. *)
Theorem create_data_lake_flag (m : Machine World) :
  (create_data_lake s3 m).1
  = Returned
      (provisions s3 (cloud m) BRONZE_BUCKET AWS_REGION "bronze" &&
       provisions s3 (cloud (bronze_run s3 m).2) SILVER_BUCKET AWS_REGION "silver" &&
       provisions s3 (cloud (silver_run s3 m).2) GOLD_BUCKET AWS_REGION "gold").
Proof.
  destruct (create_data_lake_run m) as (b1 & b2 & b3 & H1 & H2 & H3 & ->).
  apply create_bucket_flag_provisions in H1, H2, H3.
  rewrite H1, H2, H3. reflexivity.
Qed.

(** X10.  A run that returns [True] has issued exactly eighteen requests:
    the six provisioning requests of the bronze bucket, then those of the
    silver bucket, then those of the gold bucket; its log has no [ERROR]
    record and ends with the five records of the success report. *)
Theorem create_data_lake_success_trace (m : Machine World) :
  (create_data_lake s3 m).1 = Returned true →
  calls (create_data_lake s3 m).2
  = calls m
    ++ provisioning_requests "patient-outcome-dev-bronze-data" "us-west-2" "bronze"
    ++ provisioning_requests "patient-outcome-dev-silver-data" "us-west-2" "silver"
    ++ provisioning_requests "patient-outcome-dev-gold-data" "us-west-2" "gold" ∧
  length (calls (create_data_lake s3 m).2) = (length (calls m) + 18)%nat ∧
  ∃ logged : list LogRecord,
    logs (create_data_lake s3 m).2 = logs m ++ logged ++ success_records ∧
    errors (logged ++ success_records) = 0%nat.
Proof.
  intros Htrue.
  destruct (create_data_lake_run m) as (b1 & b2 & b3 & H1 & H2 & H3 & Hrun).
  rewrite Hrun in Htrue. injection Htrue as Hall.
  apply andb_true_iff in Hall as [Hall ->]. apply andb_true_iff in Hall as [-> ->].
  apply create_bucket_flag_provisions in H1, H2, H3.
  destruct (create_bucket_accepted s3 _ _ _ _ H1) as (_ & Hc1 & Hl1).
  destruct (create_bucket_accepted s3 _ _ _ _ H2) as (_ & Hc2 & Hl2).
  destruct (create_bucket_accepted s3 _ _ _ _ H3) as (_ & Hc3 & Hl3).
  destruct (create_bucket_logged s3 BRONZE_BUCKET AWS_REGION "bronze" m)
    as (i1 & l1 & _ & Hg1 & _ & He1 & _).
  destruct (create_bucket_logged s3 SILVER_BUCKET AWS_REGION "silver" (bronze_run s3 m).2)
    as (i2 & l2 & _ & Hg2 & _ & He2 & _).
  destruct (create_bucket_logged s3 GOLD_BUCKET AWS_REGION "gold" (silver_run s3 m).2)
    as (i3 & l3 & _ & Hg3 & _ & He3 & _).
  rewrite H1 in He1. rewrite H2 in He2. rewrite H3 in He3.
  fold (bronze_run s3 m) in Hc1, Hg1.
  fold (silver_run s3 m) in Hc2, Hg2.
  fold (gold_run s3 m) in Hc3, Hg3.
  rewrite Hrun. cbn [snd andb calls logs].
  assert (calls (gold_run s3 m).2
          = calls m
            ++ provisioning_requests "patient-outcome-dev-bronze-data" "us-west-2" "bronze"
            ++ provisioning_requests "patient-outcome-dev-silver-data" "us-west-2" "silver"
            ++ provisioning_requests "patient-outcome-dev-gold-data" "us-west-2" "gold")
    as Hcalls.
  { rewrite Hc3, Hc2, Hc1, <- !app_assoc. reflexivity. }
  split; [exact Hcalls |]. split.
  - rewrite Hcalls, length_app. reflexivity.
  - exists (l1 ++ l2 ++ l3). split.
    + rewrite Hg3, Hg2, Hg1, <- !app_assoc. reflexivity.
    + rewrite !errors_app, He1, He2, He3. reflexivity.
Qed.

(** X11.  The [ERROR] records of a run: none when it returns [True];
    otherwise one per bucket whose provisioning failed and one more for
    the final report.  The last record is the confirmation that the
    summary was saved on success and the failure report otherwise. *)
Theorem create_data_lake_error_records (m : Machine World) :
  ∃ (b1 b2 b3 : bool) (logged : list LogRecord),
    (bronze_run s3 m).1 = Returned b1 ∧
    (silver_run s3 m).1 = Returned b2 ∧
    (gold_run s3 m).1 = Returned b3 ∧
    logs (create_data_lake s3 m).2 = logs m ++ logged ∧
    errors logged
    = (if b1 && b2 && b3 then 0
       else S (Nat.b2n (negb b1) + Nat.b2n (negb b2) + Nat.b2n (negb b3)))%nat ∧
    last logged
    = Some (if b1 && b2 && b3
            then (INFO, "Configuration saved to data_lake_config.json")
            else (ERROR, "❌ Failed to create some data lake buckets")).
Proof.
  destruct (create_data_lake_run m) as (b1 & b2 & b3 & H1 & H2 & H3 & Hrun).
  destruct (create_bucket_logged s3 BRONZE_BUCKET AWS_REGION "bronze" m)
    as (i1 & l1 & _ & Hg1 & _ & He1 & _).
  destruct (create_bucket_logged s3 SILVER_BUCKET AWS_REGION "silver" (bronze_run s3 m).2)
    as (i2 & l2 & _ & Hg2 & _ & He2 & _).
  destruct (create_bucket_logged s3 GOLD_BUCKET AWS_REGION "gold" (silver_run s3 m).2)
    as (i3 & l3 & _ & Hg3 & _ & He3 & _).
  rewrite (create_bucket_flag_provisions BRONZE_BUCKET AWS_REGION "bronze" m b1 H1)
    in He1.
  rewrite (create_bucket_flag_provisions SILVER_BUCKET AWS_REGION "silver"
             (bronze_run s3 m).2 b2 H2) in He2.
  rewrite (create_bucket_flag_provisions GOLD_BUCKET AWS_REGION "gold"
             (silver_run s3 m).2 b3 H3) in He3.
  fold (bronze_run s3 m) in Hg1. fold (silver_run s3 m) in Hg2.
  fold (gold_run s3 m) in Hg3.
  exists b1, b2, b3.
  exists (l1 ++ l2 ++ l3
          ++ if b1 && b2 && b3 then success_records else [failure_record]).
  split; [exact H1 |]. split; [exact H2 |]. split; [exact H3 |].
  rewrite Hrun. cbn [snd]. split; [| split].
  - destruct (b1 && b2 && b3); cbn [logs]; rewrite Hg3, Hg2, Hg1, <- !app_assoc;
      reflexivity.
  - rewrite !errors_app, He1, He2, He3.
    destruct b1, b2, b3; reflexivity.
  - rewrite !last_app. destruct (b1 && b2 && b3); reflexivity.
Qed.

(** X12.  Run as a script, the module ends normally whatever
    [create_data_lake] returns: the flag is discarded, and a failed
    provisioning differs from a successful one in the log and the file
    system only. *)
Theorem main_discards_flag (m : Machine World) :
  main s3 m = (Normal (), (create_data_lake s3 m).2).
Proof.
  destruct (create_data_lake_run m) as (b1 & b2 & b3 & _ & _ & _ & Hrun).
  unfold main, mbind, Py_bind, bind, call, mret, Py_ret, ret.
  rewrite Hrun. reflexivity.
Qed.

End DataLake.

(** ** Concrete runs *)

(** A provider that accepts everything: all eighteen requests are issued
    and the summary is written. *)
Example data_lake_all_accepted :
  (create_data_lake scripted (boot [])).1 = Returned true ∧
  length (calls (create_data_lake scripted (boot [])).2) = 18%nat ∧
  files (create_data_lake scripted (boot [])).2
  = {[ "data_lake_config.json" := summary_document ]}.
Proof. vm_compute. repeat split. Qed.

(** Versioning of the bronze bucket is refused: the bronze invocation stops
    after two requests, silver and gold are still provisioned, and no file
    is written. *)
Example data_lake_bronze_versioning_refused :
  (create_data_lake scripted (boot [Ok; Err access_denied])).1 = Returned false ∧
  length (calls (create_data_lake scripted (boot [Ok; Err access_denied])).2) = 14%nat ∧
  files (create_data_lake scripted (boot [Ok; Err access_denied])).2 = ∅.
Proof. vm_compute. repeat split. Qed.

(** C5, counterexample.  Creation succeeds and versioning is refused: the
    trace holds the creation and the versioning request only.  Encryption,
    public-access block, lifecycle and tagging are never attempted, though
    the provider would have accepted each of them. *)
Lemma create_bucket_steps_not_independent :
  calls (create_bucket scripted "lake" "us-west-2" "gold"
           (boot [Ok; Err access_denied])).2
  = [ CreateBucket "lake" (Some "us-west-2"); PutBucketVersioning "lake" "Enabled" ] ∧
  step_answer scripted [Ok; Err access_denied] "lake" "us-west-2" "gold" Encryption = Ok ∧
  ¬ steps_independent scripted "lake" "us-west-2" "gold" (boot [Ok; Err access_denied]).
Proof.
  split; [reflexivity |]. split; [reflexivity |].
  intros Hall. specialize (Hall eq_refl Encryption).
  apply list_elem_of_In in Hall. vm_compute in Hall.
  destruct Hall as [Hcreate | [Hversioning | []]]; discriminate.
Qed.

Lemma create_bucket_no_rollback_witness :
  (create_bucket scripted "lake" "us-west-2" "gold"
     (boot [Err already_owned; Ok; Err access_denied])).1 = Returned false ∧
  calls (create_bucket scripted "lake" "us-west-2" "gold"
           (boot [Err already_owned; Ok; Err access_denied])).2
  = [ CreateBucket "lake" (Some "us-west-2");
      PutBucketVersioning "lake" "Enabled";
      PutBucketEncryption "lake"
        [ {| SSEAlgorithm := "AES256"; BucketKeyEnabled := true |} ] ].
Proof.
  destruct (create_bucket_no_rollback scripted "lake" "us-west-2" "gold"
              (boot [Err already_owned; Ok; Err access_denied]))
    as (flag & n & issued & -> & -> & _ & _ & _ & _ & Hstop).
  destruct (Hstop Encryption access_denied) as (-> & _ & ->).
  - reflexivity.
  - intros j Hj. apply list_elem_of_singleton in Hj as ->. reflexivity.
  - reflexivity.
  - split; reflexivity.
Defined.

Lemma create_bucket_call_order_witness :
  calls (create_bucket scripted "lake" "us-east-1" "silver" (boot [])).2
  = [ CreateBucket "lake" None;
      PutBucketVersioning "lake" "Enabled";
      PutBucketEncryption "lake" [ {| SSEAlgorithm := "AES256"; BucketKeyEnabled := true |} ];
      PutPublicAccessBlock "lake"
        {| BlockPublicAcls := true; IgnorePublicAcls := true;
           BlockPublicPolicy := true; RestrictPublicBuckets := true |};
      PutBucketLifecycleConfiguration "lake" (get_lifecycle_config "silver");
      PutBucketTagging "lake"
        [ {| Key := "Project"; Value := "PatientOutcomePrediction" |};
          {| Key := "Environment"; Value := "dev" |};
          {| Key := "DataTier"; Value := "silver" |};
          {| Key := "Contains-PHI"; Value := "True" |};
          {| Key := "Compliance"; Value := "HIPAA" |} ] ].
Proof.
  destruct (create_bucket_call_order scripted "lake" "us-east-1" "silver" (boot []))
    as (n & _ & -> & Hfull).
  rewrite (Hfull eq_refl). reflexivity.
Defined.

(** A second run against the provider that remembers the buckets of the
    first one: creation is answered ['BucketAlreadyOwnedByYou'] and the
    bucket is provisioned all the same. *)
Lemma create_bucket_already_owned_witness :
  creation_answer owned_buckets
    (cloud (create_data_lake owned_buckets (boot ∅)).2) BRONZE_BUCKET AWS_REGION
  = Err already_owned ∧
  returned (create_bucket owned_buckets BRONZE_BUCKET AWS_REGION "bronze"
              (create_data_lake owned_buckets (boot ∅)).2)
  = Some true.
Proof.
  assert (creation_answer owned_buckets
            (cloud (create_data_lake owned_buckets (boot ∅)).2) BRONZE_BUCKET AWS_REGION
          = Err already_owned) as Hanswer by (vm_compute; reflexivity).
  split; [exact Hanswer |].
  destruct (create_bucket_already_owned owned_buckets BRONZE_BUCKET AWS_REGION "bronze"
              _ already_owned Hanswer) as [Howned _].
  destruct (Howned eq_refl) as [_ ->].
  vm_compute. reflexivity.
Defined.

Lemma create_bucket_flag_witness :
  (create_bucket scripted "lake" "eu-west-1" "silver"
     (boot [Ok; Ok; Err access_denied])).1 = Returned false ∧
  last (logs (create_bucket scripted "lake" "eu-west-1" "silver"
                (boot [Ok; Ok; Err access_denied])).2)
  = Some (ERROR, "Error enabling encryption on lake: An error occurred (AccessDenied)").
Proof.
  apply (proj2 (proj2 (create_bucket_flag scripted "lake" "eu-west-1" "silver"
                         (boot [Ok; Ok; Err access_denied])))
           Encryption access_denied).
  - reflexivity.
  - intros j Hj. apply list_elem_of_singleton in Hj as ->. reflexivity.
  - reflexivity.
Defined.

Lemma create_data_lake_summary_witness :
  (create_data_lake scripted (boot [])).1 = Returned true ∧
  ∃ doc : Json,
    files (create_data_lake scripted (boot [])).2 !! "data_lake_config.json" = Some doc ∧
    json_keys doc = ["project"; "environment"; "region"; "buckets"].
Proof.
  assert ((create_data_lake scripted (boot [])).1 = Returned true) as Htrue
    by (vm_compute; reflexivity).
  split; [exact Htrue |].
  destruct (create_data_lake_summary scripted (boot []) Htrue)
    as (doc & Hfile & Hkeys & _).
  exists doc. split; [exact Hfile | exact Hkeys].
Defined.

(** ** More on the lifecycle table *)

(** X1.  Whatever the tier string, the configuration is a single enabled
    rule that applies to every object (empty prefix); its transitions are
    not empty, have strictly increasing day thresholds of at least 30 days,
    start with STANDARD_IA and only name STANDARD_IA and GLACIER. *)
Theorem get_lifecycle_config_well_formed (tier : string) :
  ∃ rule : LifecycleRule,
    Rules (get_lifecycle_config tier) = [rule] ∧
    Status rule = "Enabled" ∧
    Filter_Prefix rule = "" ∧
    (StorageClass <$> head (Transitions rule)) = Some "STANDARD_IA" ∧
    increasing_days (Transitions rule) = true ∧
    Forall (λ t, (30 ≤ Days t)%Z ∧
                 (StorageClass t = "STANDARD_IA" ∨ StorageClass t = "GLACIER"))
      (Transitions rule).
Proof.
  unfold get_lifecycle_config.
  repeat case_decide; eexists; (split; [reflexivity |]); cbn.
  all: repeat split; repeat constructor; cbn; first [lia | tauto].
Qed.

(** ** Witnesses of the further properties *)

Lemma create_bucket_first_request_witness :
  (∃ rest, calls (create_bucket scripted "lake" "us-east-1" "gold" (boot [])).2
           = CreateBucket "lake" None :: rest) ∧
  (∃ rest, calls (create_bucket scripted "lake" "eu-central-1" "gold" (boot [])).2
           = CreateBucket "lake" (Some "eu-central-1") :: rest).
Proof.
  split.
  - apply (proj1 (create_bucket_first_request scripted "lake" "us-east-1" "gold" (boot []))).
    reflexivity.
  - apply (proj2 (create_bucket_first_request scripted "lake" "eu-central-1" "gold"
                    (boot []))).
    discriminate.
Defined.

Lemma create_bucket_accepted_run_witness :
  (create_bucket scripted "lake" "us-west-2" "bronze" (boot [Err already_owned])).1
  = Returned true.
Proof.
  apply (create_bucket_accepted_run scripted "lake" "us-west-2" "bronze"
           (boot [Err already_owned])).
  - reflexivity.
  - intros k. destruct k; reflexivity.
Defined.

Lemma create_bucket_refused_step_witness :
  calls (create_bucket scripted "lake" "us-west-2" "bronze"
           (boot [Ok; Ok; Ok; Err access_denied])).2
  = [ CreateBucket "lake" (Some "us-west-2");
      PutBucketVersioning "lake" "Enabled";
      PutBucketEncryption "lake" [ {| SSEAlgorithm := "AES256"; BucketKeyEnabled := true |} ];
      PutPublicAccessBlock "lake"
        {| BlockPublicAcls := true; IgnorePublicAcls := true;
           BlockPublicPolicy := true; RestrictPublicBuckets := true |} ].
Proof.
  apply (create_bucket_refused_step scripted "lake" "us-west-2" "bronze"
           (boot [Ok; Ok; Ok; Err access_denied]) PublicAccessBlock access_denied).
  - reflexivity.
  - intros j Hj. apply list_elem_of_In in Hj. cbn in Hj.
    destruct Hj as [<- | [<- | []]]; reflexivity.
  - reflexivity.
Defined.

Lemma create_bucket_refused_creation_witness :
  logs (create_bucket scripted "lake" "us-west-2" "gold" (boot [Err access_denied])).2
  = [ (INFO, "Creating gold tier bucket: lake");
      (ERROR, "Error creating bucket lake: An error occurred (AccessDenied)") ].
Proof.
  rewrite (create_bucket_refused_creation scripted "lake" "us-west-2" "gold"
             (boot [Err access_denied]) access_denied).
  - reflexivity.
  - reflexivity.
  - discriminate.
Defined.

Lemma create_bucket_unknown_tier_witness :
  nth_error (calls (create_bucket scripted "lake" "us-west-2" "platinum" (boot [])).2) 4
  = Some (PutBucketLifecycleConfiguration "lake" (get_lifecycle_config "gold")).
Proof.
  rewrite (create_bucket_unknown_tier scripted "lake" "us-west-2" "platinum" (boot [])).
  - reflexivity.
  - discriminate.
  - discriminate.
  - reflexivity.
Defined.

Lemma create_data_lake_success_trace_witness :
  length (calls (create_data_lake scripted (boot [])).2) = 18%nat.
Proof.
  assert ((create_data_lake scripted (boot [])).1 = Returned true) as Htrue
    by (vm_compute; reflexivity).
  destruct (create_data_lake_success_trace scripted (boot []) Htrue) as (_ & Hlen & _).
  exact Hlen.
Defined.
